(** * Smart search backend: intent extraction and query construction

    A shallow embedding of [backend/main.go]: the query builder
    [constructSearchQuery], the intent extractor [analyzePromptWithOpenAI]
    and the handler step that chains them, together with models of the Go
    standard-library functions they call ([strings], [net/url],
    [unicode/utf8], [encoding/json]).

    Go strings are byte sequences; they are modelled by [string], whose
    characters are the 256 values of [ascii].  A slice is [option (list A)],
    [None] being the nil slice; what its backing array holds past its
    length is kept beside it where the code can reach it, that is, while
    [json.Unmarshal] fills it.  A pointer is [option A], [None] being
    nil. *)

From Stdlib Require Import String Ascii List NArith ZArith QArith Lia Bool.
Import ListNotations.
Local Close Scope Q_scope.
Local Open Scope string_scope.

(** ** Bytes *)

(** The double quote character, byte 34. *)
Definition dquote : ascii := "034"%char.

Definition byte_val (c : ascii) : N := N_of_ascii c.

Definition byte_in (lo hi c : ascii) : bool :=
  ((byte_val lo <=? byte_val c) && (byte_val c <=? byte_val hi))%N.

Definition is_digit (c : ascii) : bool := byte_in "0" "9" c.
Definition is_lower (c : ascii) : bool := byte_in "a" "z" c.
Definition is_upper (c : ascii) : bool := byte_in "A" "Z" c.

(** Go values of slice and pointer type. *)
Definition slice (A : Type) : Type := option (list A).
Definition ptr (A : Type) : Type := option A.

Definition elems {A : Type} (s : slice A) : list A :=
  match s with
  | None => []
  | Some l => l
  end.

Definition len {A : Type} (s : slice A) : nat := List.length (elems s).

(** Go's built-in [append(s, x)], on the elements. *)
Definition slice_append {A : Type} (s : list A) (x : A) : list A := s ++ [x].

(** What a call does: it returns, or it panics (a nil dereference). *)
Inductive outcome (A : Type) : Type :=
| Returns (a : A)
| Panics.
Arguments Returns {A} a.
Arguments Panics {A}.

(** ** package unicode/utf8 and unicode *)

Module utf8.
Local Open Scope N_scope.

(** A rune is a code point; the ones that occur here are not negative. *)
Definition rune : Type := N.

Definition RuneError : rune := 0xFFFD.
Definition RuneSelf : N := 0x80.

Definition between (lo hi b : N) : bool := (lo <=? b) && (b <=? hi).

(** The [first] and [acceptRanges] tables: for a leading byte, the size
    of its sequence and the range its second byte must lie in; [None]
    for a byte that starts no sequence of two bytes or more. *)
Definition leading (b : N) : option (nat * N * N) :=
  if between 0xC2 0xDF b then Some (2%nat, 0x80, 0xBF)
  else if b =? 0xE0 then Some (3%nat, 0xA0, 0xBF)
  else if between 0xE1 0xEC b then Some (3%nat, 0x80, 0xBF)
  else if b =? 0xED then Some (3%nat, 0x80, 0x9F)
  else if between 0xEE 0xEF b then Some (3%nat, 0x80, 0xBF)
  else if b =? 0xF0 then Some (4%nat, 0x90, 0xBF)
  else if between 0xF1 0xF3 b then Some (4%nat, 0x80, 0xBF)
  else if b =? 0xF4 then Some (4%nat, 0x80, 0x8F)
  else None.

Definition cont (b : N) : bool := between 0x80 0xBF b.
Definition low6 (b : N) : N := N.land b 0x3F.

(** [DecodeRuneInString(s)]: the first rune of [s] and its width in
    bytes; [(RuneError, 0)] for the empty string and [(RuneError, 1)]
    for an encoding that is not valid. *)
Definition DecodeRune (s : string) : rune * nat :=
  match s with
  | EmptyString => (RuneError, 0%nat)
  | String c0 r0 =>
      let s0 := byte_val c0 in
      if s0 <? RuneSelf then (s0, 1%nat)
      else match leading s0 with
           | None => (RuneError, 1%nat)
           | Some (sz, lo, hi) =>
               match r0 with
               | EmptyString => (RuneError, 1%nat)
               | String c1 r1 =>
                   let s1 := byte_val c1 in
                   if negb (between lo hi s1) then (RuneError, 1%nat)
                   else if (sz <=? 2)%nat
                   then (N.lor (N.shiftl (N.land s0 0x1F) 6) (low6 s1), 2%nat)
                   else
                     match r1 with
                     | EmptyString => (RuneError, 1%nat)
                     | String c2 r2 =>
                         let s2 := byte_val c2 in
                         if negb (cont s2) then (RuneError, 1%nat)
                         else if (sz <=? 3)%nat
                         then (N.lor (N.shiftl (N.land s0 0x0F) 12)
                                 (N.lor (N.shiftl (low6 s1) 6) (low6 s2)), 3%nat)
                         else
                           match r2 with
                           | EmptyString => (RuneError, 1%nat)
                           | String c3 _ =>
                               let s3 := byte_val c3 in
                               if negb (cont s3) then (RuneError, 1%nat)
                               else (N.lor (N.shiftl (N.land s0 0x07) 18)
                                       (N.lor (N.shiftl (low6 s1) 12)
                                          (N.lor (N.shiftl (low6 s2) 6) (low6 s3))),
                                     4%nat)
                           end
                     end
               end
           end
  end.

Definition byte_of (n : N) : ascii := ascii_of_N n.

(** [AppendRune]: the UTF-8 encoding of a rune; a surrogate or a value
    out of range is written as [RuneError]. *)
Definition EncodeRune (r : rune) : string :=
  if r <=? 0x7F then String (byte_of r) ""
  else if r <=? 0x7FF
  then String (byte_of (N.lor 0xC0 (N.shiftr r 6)))
         (String (byte_of (N.lor 0x80 (low6 r))) "")
  else if (0x10FFFF <? r) || between 0xD800 0xDFFF r
  then String (byte_of 0xEF) (String (byte_of 0xBF) (String (byte_of 0xBD) ""))
  else if r <=? 0xFFFF
  then String (byte_of (N.lor 0xE0 (N.shiftr r 12)))
         (String (byte_of (N.lor 0x80 (low6 (N.shiftr r 6))))
            (String (byte_of (N.lor 0x80 (low6 r))) ""))
  else String (byte_of (N.lor 0xF0 (N.shiftr r 18)))
         (String (byte_of (N.lor 0x80 (low6 (N.shiftr r 12))))
            (String (byte_of (N.lor 0x80 (low6 (N.shiftr r 6))))
               (String (byte_of (N.lor 0x80 (low6 r))) ""))).

(** [RuneStart(b)]: [b] is not a continuation byte. *)
Definition RuneStart (b : N) : bool := negb (N.land b 0xC0 =? 0x80).

(** [DecodeLastRuneInString], on the bytes of the string in reverse
    order: the last byte when it is ASCII; otherwise the sequence that
    starts at the nearest start byte among the three bytes before the
    last, when it decodes to a rune that ends the string. *)
Definition DecodeLastRune (reversed : string) : rune * nat :=
  match reversed with
  | EmptyString => (RuneError, 0%nat)
  | String cl before =>
      if byte_val cl <? RuneSelf then (byte_val cl, 1%nat)
      else
        let try (segment : string) : rune * nat :=
          let '(r, size) := DecodeRune segment in
          if (size =? String.length segment)%nat then (r, size)
          else (RuneError, 1%nat) in
        match before with
        | String p1 before1 =>
            if RuneStart (byte_val p1) then try (String p1 (String cl ""))
            else match before1 with
                 | String p2 before2 =>
                     if RuneStart (byte_val p2)
                     then try (String p2 (String p1 (String cl "")))
                     else match before2 with
                          | String p3 _ =>
                              if RuneStart (byte_val p3)
                              then try (String p3 (String p2 (String p1 (String cl ""))))
                              else (RuneError, 1%nat)
                          | EmptyString => (RuneError, 1%nat)
                          end
                 | EmptyString => (RuneError, 1%nat)
                 end
        | EmptyString => (RuneError, 1%nat)
        end
  end.

End utf8.

Module unicode.
Local Open Scope N_scope.

(** [IsSpace(r)]: the Latin-1 spaces, and beyond them the code points of
    the White_Space table. *)
Definition IsSpace (r : utf8.rune) : bool :=
  if r <=? 0xFF
  then utf8.between 0x09 0x0D r || (r =? 0x20) || (r =? 0x85) || (r =? 0xA0)
  else (r =? 0x1680) || utf8.between 0x2000 0x200A r
       || utf8.between 0x2028 0x2029 r || (r =? 0x202F) || (r =? 0x205F)
       || (r =? 0x3000).

End unicode.

(** ** package strings *)

Module strings.

(** [Join(elems, sep)]: nothing for no element, else the first element and
    then, for each further one, the separator and the element. *)
Fixpoint JoinRest (rest : list string) (sep : string) : string :=
  match rest with
  | [] => ""
  | s :: rest' => sep ++ s ++ JoinRest rest' sep
  end.

Definition Join (elems : list string) (sep : string) : string :=
  match elems with
  | [] => ""
  | s :: rest => s ++ JoinRest rest sep
  end.

(** [Cut(s, sep)] for a one-byte separator: the text before the first
    [sep], the text after it, and whether [sep] was found. *)
Fixpoint Cut (s : string) (sep : ascii) : string * string * bool :=
  match s with
  | EmptyString => ("", "", false)
  | String c r =>
      if Ascii.eqb c sep then ("", r, true)
      else let '(before, after, found) := Cut r sep in
           (String c before, after, found)
  end.

(** [Contains(s, sep)] for a one-byte [sep]. *)
Fixpoint ContainsByte (s : string) (sep : ascii) : bool :=
  match s with
  | EmptyString => false
  | String c r => Ascii.eqb c sep || ContainsByte r sep
  end.

(** The pieces of [s] between occurrences of [sep], in order. *)
Fixpoint SplitByte (s : string) (sep : ascii) : list string :=
  match s with
  | EmptyString => [""]
  | String c r =>
      if Ascii.eqb c sep then "" :: SplitByte r sep
      else match SplitByte r sep with
           | [] => [String c ""]
           | p :: ps => String c p :: ps
           end
  end.

(** The [asciiSpace] table: tab, line feed, vertical tab, form feed,
    carriage return, space. *)
Definition asciiSpace (c : ascii) : bool :=
  (utf8.between 0x09 0x0D (byte_val c) || (byte_val c =? 0x20))%N.

Fixpoint reverse_onto (s acc : string) : string :=
  match s with
  | EmptyString => acc
  | String c r => reverse_onto r (String c acc)
  end.

Definition reverse (s : string) : string := reverse_onto s "".

(** [TrimLeftFunc(s, f)]: the runes of [s] are read from the left and
    dropped while [f] holds.  [skip] counts the bytes still to drop of a
    rune that [f] accepted. *)
Fixpoint trimLeft (f : utf8.rune -> bool) (skip : nat) (s : string) : string :=
  match s with
  | EmptyString => ""
  | String _ r =>
      match skip with
      | S k => trimLeft f k r
      | O => let '(rn, size) := utf8.DecodeRune s in
             if f rn then trimLeft f (size - 1) r else s
      end
  end.

Definition TrimLeftFunc (s : string) (f : utf8.rune -> bool) : string :=
  trimLeft f 0 s.

(** [TrimRightFunc(s, f)], on the reversed bytes: the runes are read from
    the end with [DecodeLastRuneInString] and dropped while [f] holds.
    (Go then decodes forward the last rune kept to find where it ends;
    it ends where the first rune dropped starts.) *)
Fixpoint trimRight (f : utf8.rune -> bool) (skip : nat) (reversed : string) : string :=
  match reversed with
  | EmptyString => ""
  | String _ r =>
      match skip with
      | S k => trimRight f k r
      | O => let '(rn, size) := utf8.DecodeLastRune reversed in
             if f rn then trimRight f (size - 1) r else reverse reversed
      end
  end.

Definition TrimRightFunc (s : string) (f : utf8.rune -> bool) : string :=
  trimRight f 0 (reverse s).

Definition TrimFunc (s : string) (f : utf8.rune -> bool) : string :=
  TrimRightFunc (TrimLeftFunc s f) f.

(** The second loop of [TrimSpace], on the reversed bytes. *)
Fixpoint trimSpaceStop (reversed : string) : string :=
  match reversed with
  | EmptyString => ""
  | String c r =>
      if (utf8.RuneSelf <=? byte_val c)%N
      then TrimRightFunc (reverse reversed) unicode.IsSpace
      else if asciiSpace c then trimSpaceStop r
      else reverse reversed
  end.

(** [TrimSpace(s)]: ASCII spaces are dropped at both ends byte by byte;
    at the first byte that is not ASCII the work is handed to the
    rune-aware [TrimFunc] (from the left) or [TrimRightFunc]. *)
Fixpoint TrimSpace (s : string) : string :=
  match s with
  | EmptyString => ""
  | String c r =>
      if (utf8.RuneSelf <=? byte_val c)%N then TrimFunc s unicode.IsSpace
      else if asciiSpace c then TrimSpace r
      else trimSpaceStop (reverse s)
  end.

End strings.

(** ** package net/url *)

Module url.

(** [shouldEscape(c, encodeQueryComponent)]: letters, digits and the marks
    [-], [_], [.], [~] are left alone; in a query component every reserved
    character and everything else is escaped. *)
Definition shouldEscape (c : ascii) : bool :=
  if is_lower c || is_upper c || is_digit c then false
  else if Ascii.eqb c "-" || Ascii.eqb c "_" || Ascii.eqb c "." || Ascii.eqb c "~"
  then false
  else true.

(** [upperhex[n]] for [n < 16]. *)
Definition upperhex (n : N) : ascii :=
  match String.get (N.to_nat n) "0123456789ABCDEF" with
  | Some c => c
  | None => "0"%char
  end.

(** What [escape] writes for one byte in query-component mode. *)
Definition escapeByte (c : ascii) : string :=
  if Ascii.eqb c " " then "+"
  else if shouldEscape c
       then String "%" (String (upperhex (N.shiftr (byte_val c) 4))
                       (String (upperhex (N.land (byte_val c) 15)) ""))
       else String c "".

(** [QueryEscape(s)]. *)
Fixpoint QueryEscape (s : string) : string :=
  match s with
  | EmptyString => ""
  | String c r => escapeByte c ++ QueryEscape r
  end.

Definition ishex (c : ascii) : bool :=
  is_digit c || byte_in "a" "f" c || byte_in "A" "F" c.

Definition unhex (c : ascii) : N :=
  if is_digit c then byte_val c - byte_val "0"
  else if byte_in "a" "f" c then byte_val c - byte_val "a" + 10
  else if byte_in "A" "F" c then byte_val c - byte_val "A" + 10
  else 0.

(** [QueryUnescape(s)]: [None] is the EscapeError of a [%] that is not
    followed by two hex digits. *)
Fixpoint QueryUnescape (s : string) : option string :=
  match s with
  | EmptyString => Some ""
  | String "%" (String h (String l r)) =>
      if ishex h && ishex l
      then option_map (String (ascii_of_N (N.lor (N.shiftl (unhex h) 4) (unhex l))))
                      (QueryUnescape r)
      else None
  | String "%" _ => None
  | String "+" r => option_map (String " ") (QueryUnescape r)
  | String c r => option_map (String c) (QueryUnescape r)
  end.

(** [Values] is [map[string][]string]: each key once, with its values. *)
Definition Values : Type := list (string * list string).

Fixpoint Add (v : Values) (key value : string) : Values :=
  match v with
  | [] => [(key, [value])]
  | (k, vs) :: rest =>
      if k =? key then (k, slice_append vs value) :: rest
      else (k, vs) :: Add rest key value
  end.

(** [v[key]]: the values of a key, when the map has it. *)
Fixpoint lookup (v : Values) (key : string) : option (list string) :=
  match v with
  | [] => None
  | (k, vs) :: rest => if k =? key then Some vs else lookup rest key
  end.

(** [Get]: the first value of the key, or the empty string. *)
Definition Get (v : Values) (key : string) : string :=
  match lookup v key with
  | Some (x :: _) => x
  | _ => ""
  end.

Fixpoint insertKey (e : string * list string) (v : Values) : Values :=
  match v with
  | [] => [e]
  | e' :: rest =>
      if String.leb (fst e) (fst e') then e :: e' :: rest
      else e' :: insertKey e rest
  end.

(** The entries by increasing key, as [Encode] visits them. *)
Definition sortKeys (v : Values) : Values := fold_right insertKey [] v.

(** [Encode]: for each key in sorted order and each of its values,
    [key=value] with both escaped, the pairs separated by [&]. *)
Definition Encode (v : Values) : string :=
  fold_left
    (fun buf kv =>
       let keyEscaped := QueryEscape (fst kv) in
       fold_left
         (fun buf value =>
            (if buf =? "" then buf else buf ++ "&")
              ++ keyEscaped ++ "=" ++ QueryEscape value)
         (snd kv) buf)
    (sortKeys v) "".

(** One [key=value] piece of a query, as [parseQuery] reads it: [None]
    when the piece is dropped with an error. *)
Definition parsePiece (piece : string) : option (string * string) :=
  if strings.ContainsByte piece ";" then None
  else
    let '(key, value, _) := strings.Cut piece "=" in
    match QueryUnescape key, QueryUnescape value with
    | Some k, Some v => Some (k, v)
    | _, _ => None
    end.

(** [ParseQuery(query)]: the values found, and whether an error was met
    (the pieces in error are skipped, the others are kept). *)
Definition ParseQuery (query : string) : Values * bool :=
  fold_left
    (fun '(m, err) piece =>
       if piece =? "" then (m, err)
       else match parsePiece piece with
            | Some (k, v) => (Add m k v, err)
            | None => (m, true)
            end)
    (strings.SplitByte query "&") ([], false).

(** The raw query of a URL: what stands between the first [?] and the
    fragment, which starts at the first [#]. *)
Definition RawQuery (u : string) : string :=
  let '(noFragment, _, _) := strings.Cut u "#" in
  let '(_, query, _) := strings.Cut noFragment "?" in
  query.

End url.

(** ** package encoding/json *)

Module json.

(** A JSON text read into a tree.  A number keeps its literal; the
    members of an object keep their order and their duplicates. *)
#[warnings="-register-all"]
Inductive value : Type :=
| Null
| Bool (b : bool)
| Number (literal : string)
| Str (s : string)
| Array (elements : list value)
| Object (members : list (string * value)).

Inductive error : Type :=
| SyntaxError
| UnmarshalTypeError (Value : string).

Definition tab : ascii := "009"%char.
Definition lf : ascii := "010"%char.
Definition cr : ascii := "013"%char.
Definition backslash : ascii := "092"%char.

Definition isSpace (c : ascii) : bool :=
  Ascii.eqb c " " || Ascii.eqb c tab || Ascii.eqb c cr || Ascii.eqb c lf.

(** *** Unquoting a string literal *)

Definition hexDigit (c : ascii) : option N :=
  if url.ishex c then Some (url.unhex c) else None.

(** [getu4]: the rune of four hex digits. *)
Definition getu4 (a b c d : ascii) : option utf8.rune :=
  match hexDigit a, hexDigit b, hexDigit c, hexDigit d with
  | Some x, Some y, Some z, Some t => Some (((x * 16 + y) * 16 + z) * 16 + t)%N
  | _, _, _, _ => None
  end.

(** [utf16.IsSurrogate] and [utf16.DecodeRune]. *)
Definition IsSurrogate (r : utf8.rune) : bool :=
  ((0xD800 <=? r) && (r <? 0xE000))%N.

Definition DecodeSurrogates (r1 r2 : utf8.rune) : utf8.rune :=
  if ((0xD800 <=? r1) && (r1 <? 0xDC00) && (0xDC00 <=? r2) && (r2 <? 0xE000))%N
  then (N.lor (N.shiftl (r1 - 0xD800) 10) (r2 - 0xDC00) + 0x10000)%N
  else utf8.RuneError.

(** The byte a one-letter escape stands for. *)
Definition simpleEscape (e : ascii) : option ascii :=
  if Ascii.eqb e dquote || Ascii.eqb e backslash || Ascii.eqb e "/" || Ascii.eqb e "'"
  then Some e
  else if Ascii.eqb e "b" then Some "008"%char
  else if Ascii.eqb e "f" then Some "012"%char
  else if Ascii.eqb e "n" then Some lf
  else if Ascii.eqb e "r" then Some cr
  else if Ascii.eqb e "t" then Some tab
  else None.

(** [unquote]: the text of a string literal, given what stands between its
    quotes.  Escapes are replaced; a [\u] escape that is half of a
    surrogate pair is combined with the [\u] escape after it when that is
    the other half, and is the replacement rune otherwise; bytes that are
    not valid UTF-8 become the replacement rune.  [skip] counts the bytes
    of the current rune still to pass over.  [None] for a control byte, a
    quote or a bad escape, which the scanner lets through nowhere. *)
Fixpoint unquoteFrom (skip : nat) (s : string) : option string :=
  match s with
  | EmptyString => Some ""
  | String c r =>
      match skip with
      | S k => unquoteFrom k r
      | O =>
          if Ascii.eqb c backslash then
            match r with
            | EmptyString => None
            | String e r1 =>
                if Ascii.eqb e "u" then
                  match r1 with
                  | String h1 (String h2 (String h3 (String h4 r2))) =>
                      match getu4 h1 h2 h3 h4 with
                      | None => None
                      | Some rr =>
                          let replaced :=
                            option_map (String.append (utf8.EncodeRune utf8.RuneError))
                                       (unquoteFrom 0 r2) in
                          if IsSurrogate rr then
                            match r2 with
                            | String b' (String u' (String g1 (String g2 (String g3 (String g4 r3))))) =>
                                if Ascii.eqb b' backslash && Ascii.eqb u' "u" then
                                  match getu4 g1 g2 g3 g4 with
                                  | Some rr1 =>
                                      let dec := DecodeSurrogates rr rr1 in
                                      if (dec =? utf8.RuneError)%N then replaced
                                      else option_map (String.append (utf8.EncodeRune dec))
                                                      (unquoteFrom 0 r3)
                                  | None => replaced
                                  end
                                else replaced
                            | _ => replaced
                            end
                          else option_map (String.append (utf8.EncodeRune rr))
                                          (unquoteFrom 0 r2)
                      end
                  | _ => None
                  end
                else
                  match simpleEscape e with
                  | Some x => option_map (String x) (unquoteFrom 0 r1)
                  | None => None
                  end
            end
          else if Ascii.eqb c dquote || (byte_val c <? 0x20)%N then None
          else if (byte_val c <? utf8.RuneSelf)%N
          then option_map (String c) (unquoteFrom 0 r)
          else
            let '(rr, size) := utf8.DecodeRune s in
            option_map (String.append (utf8.EncodeRune rr)) (unquoteFrom (size - 1) r)
      end
  end.

Definition unquote (s : string) : option string := unquoteFrom 0 s.

(** *** The scanner *)

(** An entry of [parseState], with what has been read of the object or
    array it stands for. *)
Inductive parse : Type :=
| parseObjectKey (members : list (string * value)) (key : option string)
| parseObjectValue (members : list (string * value)) (key : string)
| parseArrayValue (elements : list value).

(** The step functions of the scanner. *)
Inductive step : Type :=
| stateBeginValue | stateBeginValueOrEmpty | stateBeginStringOrEmpty
| stateBeginString | stateEndValue | stateEndTop
| stateInString | stateInStringEsc | stateInStringEscU | stateInStringEscU1
| stateInStringEscU12 | stateInStringEscU123
| stateNeg | state1 | state0 | stateDot | stateDot0 | stateE | stateESign
| stateE0
| stateT | stateTr | stateTru | stateF | stateFa | stateFal | stateFals
| stateN | stateNu | stateNul.

(** The scanner: its step, its stack, the bytes of the string or number
    being read (last byte first), the top-level value once it is complete,
    and whether the end of the top-level value was seen. *)
Record scanner : Type := mkScanner {
  scanStep : step;
  parseState : list parse;
  literal : string;
  top : option value;
  endTop : bool
}.

Definition reset : scanner :=
  {| scanStep := stateBeginValue; parseState := []; literal := "";
     top := None; endTop := false |}.

Definition withStep (s : scanner) (st : step) : scanner :=
  {| scanStep := st; parseState := parseState s; literal := literal s;
     top := top s; endTop := endTop s |}.

Definition withParseState (s : scanner) (ps : list parse) : scanner :=
  {| scanStep := scanStep s; parseState := ps; literal := literal s;
     top := top s; endTop := endTop s |}.

(** The next byte of a literal is read in step [st]. *)
Definition more (s : scanner) (st : step) (c : ascii) : scanner :=
  {| scanStep := st; parseState := parseState s; literal := String c (literal s);
     top := top s; endTop := endTop s |}.

(** A literal starts with byte [c], or with nothing for a string. *)
Definition start (s : scanner) (st : step) (first : string) : scanner :=
  {| scanStep := st; parseState := parseState s; literal := first;
     top := top s; endTop := endTop s |}.

Definition maxNestingDepth : N := 10000.

Definition pushParseState (s : scanner) (newParseState : parse) (successState : step)
  : option scanner :=
  let ps := newParseState :: parseState s in
  if (N.of_nat (List.length ps) <=? maxNestingDepth)%N
  then Some (withStep (withParseState s ps) successState)
  else None.

(** A value is complete: it becomes the top-level value, the key of the
    object being read, the value of its current key, or the next element of
    the array being read. *)
Definition deliver (v : value) (s : scanner) : option scanner :=
  match parseState s with
  | [] =>
      Some {| scanStep := scanStep s; parseState := []; literal := literal s;
              top := Some v; endTop := endTop s |}
  | parseObjectKey members None :: rest =>
      match v with
      | Str k => Some (withParseState s (parseObjectKey members (Some k) :: rest))
      | _ => None
      end
  | parseObjectKey _ (Some _) :: _ => None
  | parseObjectValue members key :: rest =>
      Some (withParseState s (parseObjectValue (members ++ [(key, v)]) key :: rest))
  | parseArrayValue elements :: rest =>
      Some (withParseState s (parseArrayValue (elements ++ [v]) :: rest))
  end.

(** [popParseState], the closed object or array being delivered to what
    encloses it. *)
Definition popParseState (s : scanner) (closed : value) : option scanner :=
  match parseState s with
  | [] => None
  | _ :: rest =>
      deliver closed
        {| scanStep := match rest with [] => stateEndTop | _ => stateEndValue end;
           parseState := rest; literal := literal s; top := top s;
           endTop := match rest with [] => true | _ => endTop s end |}
  end.

Definition doStateEndTop (s : scanner) (c : ascii) : option scanner :=
  if isSpace c then Some s else None.

Definition doStateEndValue (s : scanner) (c : ascii) : option scanner :=
  match parseState s with
  | [] =>
      doStateEndTop
        {| scanStep := stateEndTop; parseState := []; literal := literal s;
           top := top s; endTop := true |} c
  | ps :: rest =>
      if isSpace c then Some (withStep s stateEndValue)
      else
        match ps with
        | parseObjectKey members (Some key) =>
            if Ascii.eqb c ":"
            then Some (withStep (withParseState s (parseObjectValue members key :: rest))
                                stateBeginValue)
            else None
        | parseObjectKey _ None => None
        | parseObjectValue members _ =>
            if Ascii.eqb c ","
            then Some (withStep (withParseState s (parseObjectKey members None :: rest))
                                stateBeginString)
            else if Ascii.eqb c "}" then popParseState s (Object members)
            else None
        | parseArrayValue elements =>
            if Ascii.eqb c "," then Some (withStep s stateBeginValue)
            else if Ascii.eqb c "]" then popParseState s (Array elements)
            else None
        end
  end.

Definition doStateBeginValue (s : scanner) (c : ascii) : option scanner :=
  if isSpace c then Some s
  else if Ascii.eqb c "{" then pushParseState s (parseObjectKey [] None) stateBeginStringOrEmpty
  else if Ascii.eqb c "[" then pushParseState s (parseArrayValue []) stateBeginValueOrEmpty
  else if Ascii.eqb c dquote then Some (start s stateInString "")
  else if Ascii.eqb c "-" then Some (start s stateNeg (String c ""))
  else if Ascii.eqb c "0" then Some (start s state0 (String c ""))
  else if Ascii.eqb c "t" then Some (withStep s stateT)
  else if Ascii.eqb c "f" then Some (withStep s stateF)
  else if Ascii.eqb c "n" then Some (withStep s stateN)
  else if byte_in "1" "9" c then Some (start s state1 (String c ""))
  else None.

Definition doStateBeginString (s : scanner) (c : ascii) : option scanner :=
  if isSpace c then Some s
  else if Ascii.eqb c dquote then Some (start s stateInString "")
  else None.

(** The number being read ends before byte [c]. *)
Definition endNumber (s : scanner) (c : ascii) : option scanner :=
  match deliver (Number (strings.reverse (literal s))) s with
  | Some s' => doStateEndValue s' c
  | None => None
  end.

Definition doState0 (s : scanner) (c : ascii) : option scanner :=
  if Ascii.eqb c "." then Some (more s stateDot c)
  else if Ascii.eqb c "e" || Ascii.eqb c "E" then Some (more s stateE c)
  else endNumber s c.

Definition doStateESign (s : scanner) (c : ascii) : option scanner :=
  if is_digit c then Some (more s stateE0 c) else None.

(** The last byte of [true], [false] or [null] was read. *)
Definition endLiteral (s : scanner) (v : value) : option scanner :=
  deliver v (withStep s stateEndValue).

(** One step of the scanner on byte [c]; [None] is [scanError]. *)
Definition scan (s : scanner) (c : ascii) : option scanner :=
  match scanStep s with
  | stateBeginValue => doStateBeginValue s c
  | stateBeginValueOrEmpty =>
      if isSpace c then Some s
      else if Ascii.eqb c "]" then doStateEndValue s c
      else doStateBeginValue s c
  | stateBeginStringOrEmpty =>
      if isSpace c then Some s
      else if Ascii.eqb c "}" then
        match parseState s with
        | parseObjectKey members _ :: rest =>
            doStateEndValue (withParseState s (parseObjectValue members "" :: rest)) c
        | _ => None
        end
      else doStateBeginString s c
  | stateBeginString => doStateBeginString s c
  | stateEndValue => doStateEndValue s c
  | stateEndTop => doStateEndTop s c
  | stateInString =>
      if Ascii.eqb c dquote then
        match unquote (strings.reverse (literal s)) with
        | Some text => deliver (Str text) (withStep s stateEndValue)
        | None => None
        end
      else if Ascii.eqb c backslash then Some (more s stateInStringEsc c)
      else if (byte_val c <? 0x20)%N then None
      else Some (more s stateInString c)
  | stateInStringEsc =>
      if Ascii.eqb c "b" || Ascii.eqb c "f" || Ascii.eqb c "n" || Ascii.eqb c "r"
         || Ascii.eqb c "t" || Ascii.eqb c backslash || Ascii.eqb c "/"
         || Ascii.eqb c dquote
      then Some (more s stateInString c)
      else if Ascii.eqb c "u" then Some (more s stateInStringEscU c)
      else None
  | stateInStringEscU =>
      if url.ishex c then Some (more s stateInStringEscU1 c) else None
  | stateInStringEscU1 =>
      if url.ishex c then Some (more s stateInStringEscU12 c) else None
  | stateInStringEscU12 =>
      if url.ishex c then Some (more s stateInStringEscU123 c) else None
  | stateInStringEscU123 =>
      if url.ishex c then Some (more s stateInString c) else None
  | stateNeg =>
      if Ascii.eqb c "0" then Some (more s state0 c)
      else if byte_in "1" "9" c then Some (more s state1 c)
      else None
  | state1 =>
      if is_digit c then Some (more s state1 c) else doState0 s c
  | state0 => doState0 s c
  | stateDot =>
      if is_digit c then Some (more s stateDot0 c) else None
  | stateDot0 =>
      if is_digit c then Some (more s stateDot0 c)
      else if Ascii.eqb c "e" || Ascii.eqb c "E" then Some (more s stateE c)
      else endNumber s c
  | stateE =>
      if Ascii.eqb c "+" || Ascii.eqb c "-" then Some (more s stateESign c)
      else doStateESign s c
  | stateESign => doStateESign s c
  | stateE0 =>
      if is_digit c then Some (more s stateE0 c) else endNumber s c
  | stateT => if Ascii.eqb c "r" then Some (withStep s stateTr) else None
  | stateTr => if Ascii.eqb c "u" then Some (withStep s stateTru) else None
  | stateTru => if Ascii.eqb c "e" then endLiteral s (Bool true) else None
  | stateF => if Ascii.eqb c "a" then Some (withStep s stateFa) else None
  | stateFa => if Ascii.eqb c "l" then Some (withStep s stateFal) else None
  | stateFal => if Ascii.eqb c "s" then Some (withStep s stateFals) else None
  | stateFals => if Ascii.eqb c "e" then endLiteral s (Bool false) else None
  | stateN => if Ascii.eqb c "u" then Some (withStep s stateNu) else None
  | stateNu => if Ascii.eqb c "l" then Some (withStep s stateNul) else None
  | stateNul => if Ascii.eqb c "l" then endLiteral s Null else None
  end.

(** The scanner run over a text, from state [s]. *)
Fixpoint scanAll (s : scanner) (data : string) : option scanner :=
  match data with
  | EmptyString => Some s
  | String c r =>
      match scan s c with
      | Some s' => scanAll s' r
      | None => None
      end
  end.

(** [eof]: the text is over; a space is fed to the scanner when the end
    of the top-level value was not seen yet. *)
Definition eof (s : scanner) : option scanner :=
  if endTop s then Some s
  else match scan s " " with
       | Some s' => if endTop s' then Some s' else None
       | None => None
       end.

(** What [checkValid] accepts, as a tree; [None] is its SyntaxError. *)
Definition parseText (data : string) : option value :=
  match scanAll reset data with
  | Some s =>
      match eof s with
      | Some s' => top s'
      | None => None
      end
  | None => None
  end.

Definition Valid (data : string) : bool :=
  match parseText data with Some _ => true | None => false end.

(** *** Decoding a tree into Go values *)

(** The [Value] of an UnmarshalTypeError: the kind of JSON value met. *)
Definition kind (v : value) : string :=
  match v with
  | Null => "null"
  | Bool _ => "bool"
  | Number _ => "number"
  | Str _ => "string"
  | Array _ => "array"
  | Object _ => "object"
  end.

(** [saveError]: the first error met is the one kept. *)
Definition saveError (saved : option error) (err : error) : option error :=
  match saved with
  | None => Some err
  | Some _ => saved
  end.

(** A decoder stores a JSON value into a Go value that already holds
    something, and passes the saved error on. *)
Definition decoder (A : Type) : Type :=
  A -> value -> option error -> A * option error.

(** Into a [string]: a JSON string is stored, [null] changes nothing,
    anything else is a type error. *)
Definition decodeString : decoder string :=
  fun cur v saved =>
    match v with
    | Str s => (s, saved)
    | Null => (cur, saved)
    | _ => (cur, saveError saved (UnmarshalTypeError (kind v)))
    end.

Section Containers.
Context {A : Type} (zero : A) (decodeElem : decoder A).

(** The elements of a JSON array, each decoded into what the backing
    array of the slice holds at its index: an element of the slice, or,
    past its length, an element an earlier and longer array left in the
    spare capacity; past the end of the backing array the slice is grown
    and the element is the zero value.  The rest of the backing array is
    returned with the elements decoded. *)
Fixpoint decodeElems (backing : list A) (elements : list value) (saved : option error)
  : list A * list A * option error :=
  match elements with
  | [] => ([], backing, saved)
  | v :: elements' =>
      let '(target, backing') :=
        match backing with
        | [] => (zero, [])
        | x :: rest => (x, rest)
        end in
      let '(a, saved) := decodeElem target v saved in
      let '(rest, spare, saved) := decodeElems backing' elements' saved in
      (a :: rest, spare, saved)
  end.

(** Into a slice, held with the spare capacity of its backing array:
    [null] makes it nil; the empty array gives a new empty slice; another
    array is decoded into the backing array and gives a slice of as many
    elements, what is left of the backing array being its spare capacity;
    anything else is a type error. *)
Definition decodeSlice : decoder (slice A * list A) :=
  fun cur v saved =>
    match v with
    | Null => ((None, []), saved)
    | Array [] => ((Some [], []), saved)
    | Array elements =>
        let '(l, spare, saved) :=
          decodeElems (elems (fst cur) ++ snd cur) elements saved in
        ((Some l, spare), saved)
    | _ => (cur, saveError saved (UnmarshalTypeError (kind v)))
    end.

(** Into a pointer: [null] makes it nil; for anything else a nil pointer
    is first made to point to a zero value, and the value is decoded into
    what the pointer points to. *)
Definition decodePtr : decoder (ptr A) :=
  fun cur v saved =>
    match v with
    | Null => (None, saved)
    | _ =>
        let target := match cur with Some x => x | None => zero end in
        let '(a, saved) := decodeElem target v saved in
        (Some a, saved)
    end.

End Containers.

Definition toUpper (c : ascii) : ascii :=
  if is_lower c then ascii_of_N (byte_val c - 32) else c.

(** Whether a key names a field whose name is ASCII, case being ignored:
    the ASCII letters match in either case, the long s (U+017F, bytes C5
    BF) matches [s] and the Kelvin sign (U+212A, bytes E2 84 AA) matches
    [k], these being the only other runes that fold to an ASCII letter. *)
Fixpoint equalFold (name key : string) : bool :=
  match name, key with
  | EmptyString, EmptyString => true
  | String n name', String k key' =>
      if (byte_val k <? utf8.RuneSelf)%N
      then Ascii.eqb (toUpper n) (toUpper k) && equalFold name' key'
      else
        match key with
        | String k1 (String k2 key2) =>
            if (byte_val k1 =? 0xC5)%N && (byte_val k2 =? 0xBF)%N
            then Ascii.eqb (toUpper n) "S" && equalFold name' key2
            else
              match key2 with
              | String k3 key3 =>
                  if (byte_val k1 =? 0xE2)%N && (byte_val k2 =? 0x84)%N
                     && (byte_val k3 =? 0xAA)%N
                  then Ascii.eqb (toUpper n) "K" && equalFold name' key3
                  else false
              | EmptyString => false
              end
        | _ => false
        end
  | _, _ => false
  end.

Section Fields.
Context {B : Type}.

(** A table of fields: the JSON name of each, and what goes with it. *)
Fixpoint findBy (matches : string -> string -> bool) (fs : list (string * B))
  (key : string) : option B :=
  match fs with
  | [] => None
  | (name, f) :: rest => if matches name key then Some f else findBy matches rest key
  end.

(** The field a key names: the one of that very name, or else the first
    whose name equals the key when case is ignored. *)
Definition findField (fs : list (string * B)) (key : string) : option B :=
  match findBy String.eqb fs key with
  | Some f => Some f
  | None => findBy equalFold fs key
  end.

End Fields.

Section Structs.
Context {S F : Type}.

(** Into a struct with fields [fs], a value being stored into field [f] by
    [store f]: [null] changes nothing; the members of an object are
    decoded in order into the fields they name, the others being skipped;
    anything else is a type error. *)
Definition decodeStruct (fs : list (string * F)) (store : F -> decoder S) : decoder S :=
  fun cur v saved =>
    match v with
    | Null => (cur, saved)
    | Object members =>
        fold_left
          (fun '(cur, saved) '(key, v) =>
             match findField fs key with
             | Some f => store f cur v saved
             | None => (cur, saved)
             end)
          members (cur, saved)
    | _ => (cur, saveError saved (UnmarshalTypeError (kind v)))
    end.

(** [Unmarshal(data, &v)]: a text that is not valid JSON leaves [v] as it
    is and gives a SyntaxError; a valid one is decoded into [v], and the
    first type error met, if any, is returned with what was decoded. *)
Definition Unmarshal (decode : decoder S) (data : string) (v : S) : S * option error :=
  match parseText data with
  | None => (v, Some SyntaxError)
  | Some j => decode v j None
  end.

End Structs.

End json.

(** ** The search intent *)

Record SearchIntent : Type := mkSearchIntent {
  MainQuery : string;
  ExactPhrases : slice string;
  SiteFilter : string;
  FileType : string;
  ExcludeWords : slice string;
  DateRange : string
}.

(** ** The query builder *)

(** The four [fmt.Sprintf] calls of the builder; [%s] writes its argument
    as it is. *)
Definition quoted (phrase : string) : string :=
  String dquote (phrase ++ String dquote "").
Definition sitePart (site : string) : string := "site:" ++ site.
Definition filetypePart (ft : string) : string := "filetype:" ++ ft.
Definition excludePart (word : string) : string := "-" ++ word.
Definition afterPart (date : string) : string := "after:" ++ date.

Definition baseURL : string := "https://www.google.com/search".

(** [queryParts] as it stands when [constructSearchQuery] reaches the
    [baseURL] line: each [if] and each [for] of the source, in order,
    threading the slice through. *)
Definition queryParts (intent : SearchIntent) : list string :=
  let queryParts : list string := [] in
  let queryParts :=
    if MainQuery intent =? "" then queryParts
    else slice_append queryParts (MainQuery intent) in
  let queryParts :=
    fold_left
      (fun queryParts phrase =>
         if phrase =? "" then queryParts
         else slice_append queryParts (quoted phrase))
      (elems (ExactPhrases intent)) queryParts in
  let queryParts :=
    if SiteFilter intent =? "" then queryParts
    else slice_append queryParts (sitePart (SiteFilter intent)) in
  let queryParts :=
    if FileType intent =? "" then queryParts
    else slice_append queryParts (filetypePart (FileType intent)) in
  let queryParts :=
    fold_left
      (fun queryParts word =>
         if word =? "" then queryParts
         else slice_append queryParts (excludePart word))
      (elems (ExcludeWords intent)) queryParts in
  let queryParts :=
    if DateRange intent =? "" then queryParts
    else slice_append queryParts (afterPart (DateRange intent)) in
  queryParts.

(** [constructSearchQuery(intent)]: reading a field of a nil [intent]
    panics; otherwise the parts are joined and encoded as parameter [q]. *)
Definition constructSearchQuery (intent : ptr SearchIntent) : outcome string :=
  match intent with
  | None => Panics
  | Some intent =>
      let params : url.Values := [] in
      let params := url.Add params "q" (strings.Join (queryParts intent) " ") in
      Returns (baseURL ++ "?" ++ url.Encode params)
  end.

(** The decoded [q] parameter of a URL: the raw query parsed as
    [url.ParseQuery] does and the first value of [q] taken; [None] when
    the query does not parse or has no parameter [q]. *)
Definition decoded_q (u : string) : option string :=
  match url.ParseQuery (url.RawQuery u) with
  | (m, false) =>
      match url.lookup m "q" with
      | Some (x :: _) => Some x
      | _ => None
      end
  | (_, true) => None
  end.

Definition decoded_q_of (r : outcome string) : option string :=
  match r with
  | Returns u => decoded_q u
  | Panics => None
  end.

(** ** The clause sequence as the specification words it *)

Definition nonEmpty (s : string) : bool := negb (s =? "").

(** The clause of an optional field: none when the field is empty. *)
Definition optionalClause (render : string -> string) (field : string) : list string :=
  if field =? "" then [] else [render field].

(** Main query, quoted phrases, site filter, file type, negated words,
    date range: the fixed sequence, the empty entries skipped. *)
Definition clausesInOrder (intent : SearchIntent) : list string :=
  optionalClause (fun s => s) (MainQuery intent)
  ++ map (fun phrase => String dquote (phrase ++ String dquote ""))
       (filter nonEmpty (elems (ExactPhrases intent)))
  ++ optionalClause (fun site => "site:" ++ site) (SiteFilter intent)
  ++ optionalClause (fun ft => "filetype:" ++ ft) (FileType intent)
  ++ map (fun word => "-" ++ word) (filter nonEmpty (elems (ExcludeWords intent)))
  ++ optionalClause (fun date => "after:" ++ date) (DateRange intent).

(** Clauses joined by single spaces: one space between each clause and the
    next, none before the first or after the last. *)
Fixpoint spaced (clauses : list string) : string :=
  match clauses with
  | [] => ""
  | [clause] => clause
  | clause :: rest => clause ++ " " ++ spaced rest
  end.

(** The intent with the empty entries of its two lists removed. *)
Definition withoutEmptyEntries (intent : SearchIntent) : SearchIntent :=
  {| MainQuery := MainQuery intent;
     ExactPhrases := option_map (filter nonEmpty) (ExactPhrases intent);
     SiteFilter := SiteFilter intent;
     FileType := FileType intent;
     ExcludeWords := option_map (filter nonEmpty) (ExcludeWords intent);
     DateRange := DateRange intent |}.

(** [sub] is [l] with some entries left out, the order kept. *)
Inductive sublist {A : Type} : list A -> list A -> Prop :=
| sublist_nil : sublist [] []
| sublist_skip (x : A) (sub l : list A) : sublist sub l -> sublist sub (x :: l)
| sublist_keep (x : A) (sub l : list A) : sublist sub l -> sublist (x :: sub) (x :: l).

(** A field of the emptier intent is empty or unchanged. *)
Definition fieldEmptier (a b : string) : Prop := a = "" \/ a = b.

(** [a] is [b] with some fields emptied and some list entries dropped. *)
Record emptier (a b : SearchIntent) : Prop := mkEmptier {
  emptier_main : fieldEmptier (MainQuery a) (MainQuery b);
  emptier_phrases : sublist (elems (ExactPhrases a)) (elems (ExactPhrases b));
  emptier_site : fieldEmptier (SiteFilter a) (SiteFilter b);
  emptier_filetype : fieldEmptier (FileType a) (FileType b);
  emptier_exclude : sublist (elems (ExcludeWords a)) (elems (ExcludeWords b));
  emptier_date : fieldEmptier (DateRange a) (DateRange b)
}.


(** The intent of the specification's worked example. *)
Definition exampleIntent : SearchIntent :=
  {| MainQuery := "machine learning";
     ExactPhrases := Some ["research papers"];
     SiteFilter := "arxiv.org";
     FileType := "pdf";
     ExcludeWords := Some ["blog"];
     DateRange := "2024" |}.

Definition emptyIntent (phrases words : slice string) : SearchIntent :=
  {| MainQuery := ""; ExactPhrases := phrases; SiteFilter := "";
     FileType := ""; ExcludeWords := words; DateRange := "" |}.

(** ** The exchange with the model provider *)

Definition OPENAI_API_KEY : string := "openapi-key".
Definition OPENAI_API_URL : string := "https://api.openai.com/v1/chat/completions".

(** A text in which each apostrophe stands for a double quote. *)
Fixpoint jsonText (s : string) : string :=
  match s with
  | EmptyString => ""
  | String c r => String (if Ascii.eqb c "'" then dquote else c) (jsonText r)
  end.

Record OpenAIMessage : Type := mkOpenAIMessage {
  Role : string;
  Content : string
}.

(** [Temperature] is the decimal literal of the source, as a fraction. *)
Record OpenAIRequest : Type := mkOpenAIRequest {
  Model : string;
  Messages : list OpenAIMessage;
  Temperature : Q
}.

(** [OpenAIResponse] and the anonymous structs it is made of. *)
Record ChoiceMessage : Type := mkChoiceMessage {
  MessageContent : string
}.

Record Choice : Type := mkChoice {
  Message : ChoiceMessage
}.

Record ResponseError : Type := mkResponseError {
  ErrorMessage : string
}.

Record OpenAIResponse : Type := mkOpenAIResponse {
  Choices : slice Choice;
  Error : ptr ResponseError
}.

Record SearchHandler : Type := mkSearchHandler {
  openAIKey : string
}.

Definition NewSearchHandler (openAIKey : string) : SearchHandler :=
  {| openAIKey := openAIKey |}.

(** The zero values that [var] declarations and slice growth produce. *)
Definition zeroChoiceMessage : ChoiceMessage := {| MessageContent := "" |}.
Definition zeroChoice : Choice := {| Message := zeroChoiceMessage |}.
Definition zeroResponseError : ResponseError := {| ErrorMessage := "" |}.
Definition zeroOpenAIResponse : OpenAIResponse := {| Choices := None; Error := None |}.
Definition zeroSearchIntent : SearchIntent :=
  {| MainQuery := ""; ExactPhrases := None; SiteFilter := ""; FileType := "";
     ExcludeWords := None; DateRange := "" |}.

(** How [json.Unmarshal] fills each struct: its fields with the names
    their [json] tags give them, and the store into each. *)
Inductive choiceMessageField : Type := fContent.
Inductive choiceField : Type := fMessage.
Inductive responseErrorField : Type := fErrorMessage.
Inductive responseField : Type := fChoices | fError.
Inductive intentField : Type :=
| fMainQuery | fExactPhrases | fSiteFilter | fFileType | fExcludeWords | fDateRange.

Definition decodeChoiceMessage : json.decoder ChoiceMessage :=
  json.decodeStruct [("content", fContent)]
    (fun f cur v saved =>
       match f with
       | fContent =>
           let '(x, saved) := json.decodeString (MessageContent cur) v saved in
           ({| MessageContent := x |}, saved)
       end).

Definition decodeChoice : json.decoder Choice :=
  json.decodeStruct [("message", fMessage)]
    (fun f cur v saved =>
       match f with
       | fMessage =>
           let '(x, saved) := decodeChoiceMessage (Message cur) v saved in
           ({| Message := x |}, saved)
       end).

Definition decodeResponseError : json.decoder ResponseError :=
  json.decodeStruct [("message", fErrorMessage)]
    (fun f cur v saved =>
       match f with
       | fErrorMessage =>
           let '(x, saved) := json.decodeString (ErrorMessage cur) v saved in
           ({| ErrorMessage := x |}, saved)
       end).

(** The variable [openAIResp] while [json.Unmarshal] fills it: the
    struct, and the spare capacity of its slice. *)
Record responseMemory : Type := mkResponseMemory {
  theResponse : OpenAIResponse;
  spareChoices : list Choice
}.

Definition storeResponseField (f : responseField) : json.decoder responseMemory :=
  fun mem v saved =>
    let cur := theResponse mem in
    match f with
    | fChoices =>
        let '((x, spare), saved) :=
          json.decodeSlice zeroChoice decodeChoice (Choices cur, spareChoices mem)
            v saved in
        ({| theResponse := {| Choices := x; Error := Error cur |};
            spareChoices := spare |}, saved)
    | fError =>
        let '(x, saved) :=
          json.decodePtr zeroResponseError decodeResponseError (Error cur) v saved in
        ({| theResponse := {| Choices := Choices cur; Error := x |};
            spareChoices := spareChoices mem |}, saved)
    end.

(** Into an [OpenAIResponse] whose slice has no spare capacity, as that of
    a variable just declared has none. *)
Definition decodeOpenAIResponse : json.decoder OpenAIResponse :=
  fun cur v saved =>
    let '(mem, saved) :=
      json.decodeStruct [("choices", fChoices); ("error", fError)] storeResponseField
        {| theResponse := cur; spareChoices := [] |} v saved in
    (theResponse mem, saved).

Definition decodeStrings : json.decoder (slice string * list string) :=
  json.decodeSlice "" json.decodeString.

Definition intentFields : list (string * intentField) :=
  [("main_query", fMainQuery); ("exact_phrases", fExactPhrases);
   ("site_filter", fSiteFilter); ("file_type", fFileType);
   ("exclude_words", fExcludeWords); ("date_range", fDateRange)].

(** The variable [intent] while [json.Unmarshal] fills it: the struct,
    and the spare capacity of its two slices. *)
Record intentMemory : Type := mkIntentMemory {
  theIntent : SearchIntent;
  sparePhrases : list string;
  spareWords : list string
}.

Definition storeIntentField (f : intentField) : json.decoder intentMemory :=
  fun mem v saved =>
    let cur := theIntent mem in
    let keep (intent : SearchIntent) : intentMemory :=
      {| theIntent := intent; sparePhrases := sparePhrases mem;
         spareWords := spareWords mem |} in
    match f with
    | fMainQuery =>
        let '(x, saved) := json.decodeString (MainQuery cur) v saved in
        (keep {| MainQuery := x; ExactPhrases := ExactPhrases cur;
                 SiteFilter := SiteFilter cur; FileType := FileType cur;
                 ExcludeWords := ExcludeWords cur; DateRange := DateRange cur |}, saved)
    | fExactPhrases =>
        let '((x, spare), saved) :=
          decodeStrings (ExactPhrases cur, sparePhrases mem) v saved in
        ({| theIntent :=
              {| MainQuery := MainQuery cur; ExactPhrases := x;
                 SiteFilter := SiteFilter cur; FileType := FileType cur;
                 ExcludeWords := ExcludeWords cur; DateRange := DateRange cur |};
            sparePhrases := spare; spareWords := spareWords mem |}, saved)
    | fSiteFilter =>
        let '(x, saved) := json.decodeString (SiteFilter cur) v saved in
        (keep {| MainQuery := MainQuery cur; ExactPhrases := ExactPhrases cur;
                 SiteFilter := x; FileType := FileType cur;
                 ExcludeWords := ExcludeWords cur; DateRange := DateRange cur |}, saved)
    | fFileType =>
        let '(x, saved) := json.decodeString (FileType cur) v saved in
        (keep {| MainQuery := MainQuery cur; ExactPhrases := ExactPhrases cur;
                 SiteFilter := SiteFilter cur; FileType := x;
                 ExcludeWords := ExcludeWords cur; DateRange := DateRange cur |}, saved)
    | fExcludeWords =>
        let '((x, spare), saved) :=
          decodeStrings (ExcludeWords cur, spareWords mem) v saved in
        ({| theIntent :=
              {| MainQuery := MainQuery cur; ExactPhrases := ExactPhrases cur;
                 SiteFilter := SiteFilter cur; FileType := FileType cur;
                 ExcludeWords := x; DateRange := DateRange cur |};
            sparePhrases := sparePhrases mem; spareWords := spare |}, saved)
    | fDateRange =>
        let '(x, saved) := json.decodeString (DateRange cur) v saved in
        (keep {| MainQuery := MainQuery cur; ExactPhrases := ExactPhrases cur;
                 SiteFilter := SiteFilter cur; FileType := FileType cur;
                 ExcludeWords := ExcludeWords cur; DateRange := x |}, saved)
    end.

(** The intent in memory, its slices having no spare capacity. *)
Definition fresh (intent : SearchIntent) : intentMemory :=
  {| theIntent := intent; sparePhrases := []; spareWords := [] |}.

Definition decodeIntentMemory : json.decoder intentMemory :=
  json.decodeStruct intentFields storeIntentField.

(** Into a [SearchIntent] whose slices have no spare capacity, as those
    of a variable just declared have none. *)
Definition decodeSearchIntent : json.decoder SearchIntent :=
  fun cur v saved =>
    let '(mem, saved) := decodeIntentMemory (fresh cur) v saved in
    (theIntent mem, saved).

(** The errors [analyzePromptWithOpenAI] returns, one for each
    [fmt.Errorf] that can be reached, with what its message carries:
    - [errCallingOpenAI]: error calling OpenAI, the transport error;
    - [errReadingBody]: error reading response body, the read error;
    - [errParsingResponse]: error parsing OpenAI response, the JSON error;
    - [errOpenAIAPI]: OpenAI API error, the message of the provider;
    - [errNoChoices]: no response choices from OpenAI;
    - [errParsingIntent]: error parsing intent JSON, the JSON error and
      the content that did not parse. *)
Inductive error : Type :=
| errCallingOpenAI (err : string)
| errReadingBody (err : string)
| errParsingResponse (err : json.error)
| errOpenAIAPI (message : string)
| errNoChoices
| errParsingIntent (err : json.error) (content : string).

(** The request [analyzePromptWithOpenAI] builds. *)
Record Request : Type := mkRequest {
  Method : string;
  URL : string;
  Authorization : string;
  ContentType : string;
  Body : OpenAIRequest
}.

(** What becomes of one call of [h.client.Do] followed by [io.ReadAll]:
    the call fails (no connection, a cancelled context), the read fails,
    or a body is read. *)
Inductive exchange : Type :=
| doFails (err : string)
| readFails (err : string)
| replies (body : string).

(** The world outside: the requests sent so far; the network, which
    answers a request given all that was sent up to it; and the connection
    to the client, as the error the response writer returns when the
    encoded result is written to it, [None] when it is written. *)
Record World : Type := mkWorld {
  sent : list Request;
  network : list Request -> exchange;
  writeError : option string
}.

Definition Do (req : Request) (w : World) : exchange * World :=
  let history := slice_append (sent w) req in
  (network w history,
   {| sent := history; network := network w; writeError := writeError w |}).

Definition systemInstruction : string :=
  jsonText "You are a search query analyzer. Extract search parameters and return ONLY a JSON object like this:
{
    'main_query': 'the main search terms',
    'exact_phrases': ['exact phrase 1', 'exact phrase 2'],
    'site_filter': 'example.com',
    'file_type': 'pdf',
    'exclude_words': ['exclude1', 'exclude2'],
    'date_range': 'timeframe'
}
Always include all fields, use empty arrays [] for empty lists, and empty strings '' for empty fields.".

(** The request [analyzePromptWithOpenAI] makes of a prompt: the two
    messages, the request body, the method, the address and the headers. *)
Definition newRequest (h : SearchHandler) (prompt : string) : Request :=
  let messages :=
    [ {| Role := "system"; Content := systemInstruction |};
      {| Role := "user"; Content := prompt |} ] in
  let reqBody :=
    {| Model := "gpt-3.5-turbo"; Messages := messages; Temperature := 3 # 10 |} in
  {| Method := "POST"; URL := OPENAI_API_URL;
     Authorization := "Bearer " ++ openAIKey h;
     ContentType := "application/json"; Body := reqBody |}.

(** [analyzePromptWithOpenAI(ctx, prompt)].  The request is sent once; the
    body read is decoded as an [OpenAIResponse]; the trimmed content of
    the first choice is decoded as a [SearchIntent], whose nil lists are
    then made empty.  Marshalling the request and creating it cannot fail
    for the values used here, and logging is left out. *)
Definition analyzePromptWithOpenAI (h : SearchHandler) (prompt : string) (w : World)
  : (ptr SearchIntent * option error) * World :=
  let req := newRequest h prompt in
  let '(resp, w) := Do req w in
  match resp with
  | doFails err => ((None, Some (errCallingOpenAI err)), w)
  | readFails err => ((None, Some (errReadingBody err)), w)
  | replies body =>
      let '(openAIResp, err) :=
        json.Unmarshal decodeOpenAIResponse body zeroOpenAIResponse in
      match err with
      | Some err => ((None, Some (errParsingResponse err)), w)
      | None =>
          match Error openAIResp with
          | Some apiError => ((None, Some (errOpenAIAPI (ErrorMessage apiError))), w)
          | None =>
              match elems (Choices openAIResp) with
              | [] => ((None, Some errNoChoices), w)
              | choice0 :: _ =>
                  let intent := zeroSearchIntent in
                  let content := strings.TrimSpace (MessageContent (Message choice0)) in
                  let '(intent, err) := json.Unmarshal decodeSearchIntent content intent in
                  match err with
                  | Some err => ((None, Some (errParsingIntent err content)), w)
                  | None =>
                      let intent :=
                        match ExactPhrases intent with
                        | None =>
                            {| MainQuery := MainQuery intent; ExactPhrases := Some [];
                               SiteFilter := SiteFilter intent; FileType := FileType intent;
                               ExcludeWords := ExcludeWords intent;
                               DateRange := DateRange intent |}
                        | Some _ => intent
                        end in
                      let intent :=
                        match ExcludeWords intent with
                        | None =>
                            {| MainQuery := MainQuery intent;
                               ExactPhrases := ExactPhrases intent;
                               SiteFilter := SiteFilter intent; FileType := FileType intent;
                               ExcludeWords := Some [];
                               DateRange := DateRange intent |}
                        | Some _ => intent
                        end in
                      ((Some intent, None), w)
                  end
              end
          end
      end
  end.

(** ** The handler *)

(** The request [handleSearch] is given: its method, and its body as
    [io.ReadAll] returns it, [None] when the read fails. *)
Record HTTPRequest : Type := mkHTTPRequest {
  RequestMethod : string;
  RequestBody : option string
}.

(** The anonymous struct the request body is decoded into. *)
Record PromptRequest : Type := mkPromptRequest {
  Prompt : string
}.

Inductive promptField : Type := fPrompt.

Definition decodePromptRequest : json.decoder PromptRequest :=
  json.decodeStruct [("prompt", fPrompt)]
    (fun f cur v saved =>
       match f with
       | fPrompt =>
           let '(x, saved) := json.decodeString (Prompt cur) v saved in
           ({| Prompt := x |}, saved)
       end).

Definition StatusOK : N := 200.
Definition StatusBadRequest : N := 400.
Definition StatusMethodNotAllowed : N := 405.
Definition StatusInternalServerError : N := 500.

(** What [handleSearch] writes, the three CORS headers being set in every
    case: a bare status for OPTIONS; the [http.Error] calls, with their
    message and status, the message of the extractor error being kept as
    the error itself; the JSON object of the search URL and the intent,
    when it was written.  [Panicked] stands for a nil dereference in the
    builder. *)
Inductive answer : Type :=
| WriteHeader (status : N)
| HTTPError (message : string) (status : N)
| AnalyzeError (err : error) (status : N)
| SearchResult (search_url : string) (intent : ptr SearchIntent)
| Panicked.

(** [handleSearch] from the call of the extractor on: the builder is
    called only when the extractor returned no error.  The result, a map
    of a string and an intent, always marshals; [Encode] fails when the
    write of it does, and the handler then calls [http.Error]. *)
Definition answerPrompt (h : SearchHandler) (prompt : string) (w : World)
  : answer * World :=
  let '((intent, err), w) := analyzePromptWithOpenAI h prompt w in
  match err with
  | Some err => (AnalyzeError err StatusInternalServerError, w)
  | None =>
      match constructSearchQuery intent with
      | Returns searchURL =>
          match writeError w with
          | None => (SearchResult searchURL intent, w)
          | Some _ =>
              (HTTPError "Error encoding response" StatusInternalServerError, w)
          end
      | Panics => (Panicked, w)
      end
  end.

(** [handleSearch(w, r)].  Logging is left out. *)
Definition handleSearch (h : SearchHandler) (r : HTTPRequest) (w : World)
  : answer * World :=
  if RequestMethod r =? "OPTIONS" then (WriteHeader StatusOK, w)
  else if negb (RequestMethod r =? "POST")
  then (HTTPError "Method not allowed" StatusMethodNotAllowed, w)
  else
    match RequestBody r with
    | None => (HTTPError "Error reading request body" StatusBadRequest, w)
    | Some body =>
        let '(req, err) :=
          json.Unmarshal decodePromptRequest body {| Prompt := "" |} in
        match err with
        | Some _ => (HTTPError "Invalid request body" StatusBadRequest, w)
        | None => answerPrompt h (Prompt req) w
        end
    end.

(** ** What the extractor accepts of a reply *)

(** The two shapes a field of the intent takes in JSON. *)
Inductive shape : Type := aString | aStringList.

Definition intentFieldShape (f : intentField) : shape :=
  match f with
  | fExactPhrases | fExcludeWords => aStringList
  | _ => aString
  end.

(** A string field takes a JSON string or [null]. *)
Definition stringError (v : json.value) : option json.error :=
  match v with
  | json.Str _ | json.Null => None
  | _ => Some (json.UnmarshalTypeError (json.kind v))
  end.

(** The first [Some] of two. *)
Definition orElse {A : Type} (first second : option A) : option A :=
  match first with
  | Some _ => first
  | None => second
  end.

Fixpoint firstError (errors : list (option json.error)) : option json.error :=
  match errors with
  | [] => None
  | e :: rest => orElse e (firstError rest)
  end.

(** A field of a given shape takes [null] and the values of its shape; a
    list takes an array whose elements a string field would take. *)
Definition shapeError (sh : shape) (v : json.value) : option json.error :=
  match sh with
  | aString => stringError v
  | aStringList =>
      match v with
      | json.Null => None
      | json.Array elements => firstError (map stringError elements)
      | _ => Some (json.UnmarshalTypeError (json.kind v))
      end
  end.

(** A member of the reply is in error when its key names a field of the
    intent and its value has not the shape of that field. *)
Definition memberError (member : string * json.value) : option json.error :=
  match json.findField intentFields (fst member) with
  | Some f => shapeError (intentFieldShape f) (snd member)
  | None => None
  end.

(** A JSON value is taken for an intent when it is [null], or an object
    none of whose members is in error. *)
Definition intentError (v : json.value) : option json.error :=
  match v with
  | json.Null => None
  | json.Object members => firstError (map memberError members)
  | _ => Some (json.UnmarshalTypeError (json.kind v))
  end.

(** The error of a reply content, if it has one: it is no valid JSON
    text, or the value it holds is not taken for an intent. *)
Definition replyError (content : string) : option json.error :=
  match json.parseText content with
  | None => Some json.SyntaxError
  | Some v => intentError v
  end.

(** Whether a key names field [f] of the intent, and whether no member of
    an object does. *)
Definition sameField (f g : intentField) : bool :=
  match f, g with
  | fMainQuery, fMainQuery | fExactPhrases, fExactPhrases
  | fSiteFilter, fSiteFilter | fFileType, fFileType
  | fExcludeWords, fExcludeWords | fDateRange, fDateRange => true
  | _, _ => false
  end.

Definition names (f : intentField) (key : string) : bool :=
  match json.findField intentFields key with
  | Some g => sameField f g
  | None => false
  end.

Definition absent (f : intentField) (members : list (string * json.value)) : bool :=
  forallb (fun member => negb (names f (fst member))) members.

(** The two assignments that make nil lists empty. *)
Definition emptyIfNil (s : slice string) : slice string :=
  match s with
  | None => Some []
  | Some _ => s
  end.

(** The world after one more request. *)
Definition afterRequest (w : World) (req : Request) : World :=
  {| sent := slice_append (sent w) req; network := network w;
     writeError := writeError w |}.

(** A network that answers every request with the same body, nothing
    being sent yet and the client being there; and the body of a provider response whose first choice
    has the given content, written as it stands between the quotes of a
    JSON string with apostrophes for double quotes. *)
Definition answering (body : string) : World :=
  {| sent := []; network := fun _ => replies body; writeError := None |}.

Definition responseWith (content : string) : string :=
  jsonText ("{'choices':[{'index':0,'message':{'role':'assistant','content':'"
              ++ content ++ "'},'finish_reason':'stop'}]}").

(** The bytes that delimit the parts of a URL and of a query. *)
Definition delimiter (c : ascii) : bool :=
  Ascii.eqb c "#" || Ascii.eqb c "?" || Ascii.eqb c "&"
  || Ascii.eqb c "=" || Ascii.eqb c ";".

(** The handler of the examples, and the intent with nothing in it that
    the extractor returns. *)
Definition exampleHandler : SearchHandler := NewSearchHandler OPENAI_API_KEY.

Definition blankIntent : SearchIntent := emptyIntent (Some []) (Some []).

(** The no-break space U+00A0 and the ideographic space U+3000, in UTF-8. *)
Definition nbsp : string := String "194" (String "160" "").
Definition ideographicSpace : string := String "227" (String "128" (String "128" "")).

(** A POST request whose body is the JSON object of a prompt that needs
    no escaping. *)
Definition postPrompt (prompt : string) : HTTPRequest :=
  {| RequestMethod := "POST";
     RequestBody := Some (jsonText "{'prompt':'" ++ prompt ++ jsonText "'}") |}.

(** ** String literals as the scanner lets them through *)

(** Whether a step of the scanner is one inside a string literal. *)
Definition inLiteral (st : json.step) : bool :=
  match st with
  | json.stateInString | json.stateInStringEsc | json.stateInStringEscU
  | json.stateInStringEscU1 | json.stateInStringEscU12
  | json.stateInStringEscU123 => true
  | _ => false
  end.

(** The step that follows [st] on byte [c] inside a string literal; [None]
    when [c] closes the literal or is an error there. *)
Definition literalStep (st : json.step) (c : ascii) : option json.step :=
  match st with
  | json.stateInString =>
      if Ascii.eqb c dquote then None
      else if Ascii.eqb c json.backslash then Some json.stateInStringEsc
      else if (byte_val c <? 0x20)%N then None
      else Some json.stateInString
  | json.stateInStringEsc =>
      if Ascii.eqb c "b" || Ascii.eqb c "f" || Ascii.eqb c "n" || Ascii.eqb c "r"
         || Ascii.eqb c "t" || Ascii.eqb c json.backslash || Ascii.eqb c "/"
         || Ascii.eqb c dquote
      then Some json.stateInString
      else if Ascii.eqb c "u" then Some json.stateInStringEscU
      else None
  | json.stateInStringEscU =>
      if url.ishex c then Some json.stateInStringEscU1 else None
  | json.stateInStringEscU1 =>
      if url.ishex c then Some json.stateInStringEscU12 else None
  | json.stateInStringEscU12 =>
      if url.ishex c then Some json.stateInStringEscU123 else None
  | json.stateInStringEscU123 =>
      if url.ishex c then Some json.stateInString else None
  | _ => None
  end.

Fixpoint literalRun (st : json.step) (content : string) : option json.step :=
  match content with
  | EmptyString => Some st
  | String c r =>
      match literalStep st c with
      | Some st' => literalRun st' r
      | None => None
      end
  end.

(** Inside a string literal, the bytes kept are those read since its
    opening quote, and they lead to the current step. *)
Definition literalKept (s : json.scanner) : Prop :=
  inLiteral (json.scanStep s) = true ->
  literalRun json.stateInString (strings.reverse (json.literal s))
  = Some (json.scanStep s).

(** The first [k] bytes of [s] are there and are not ASCII. *)
Fixpoint highBytes (k : nat) (s : string) : bool :=
  match k with
  | O => true
  | S k' =>
      match s with
      | EmptyString => false
      | String c r => (utf8.RuneSelf <=? byte_val c)%N && highBytes k' r
      end
  end.

(** ** Further notions for the builder *)

(** Every byte of [s] satisfies [p]. *)
Fixpoint allBytes (p : ascii -> bool) (s : string) : bool :=
  match s with
  | EmptyString => true
  | String c r => p c && allBytes p r
  end.

(** The bytes a search URL is made of: letters, digits, the marks that
    are never escaped, the two bytes escaping writes, and the punctuation
    of the base URL and of the parameter. *)
Definition urlByte (c : ascii) : bool :=
  is_lower c || is_upper c || is_digit c
  || Ascii.eqb c "-" || Ascii.eqb c "_" || Ascii.eqb c "." || Ascii.eqb c "~"
  || Ascii.eqb c "%" || Ascii.eqb c "+"
  || Ascii.eqb c ":" || Ascii.eqb c "/" || Ascii.eqb c "?" || Ascii.eqb c "=".

(** The intent has nothing to search for: its four texts are empty and its
    lists hold nothing but empty entries. *)
Definition carriesNothing (intent : SearchIntent) : bool :=
  (MainQuery intent =? "")
  && forallb (fun s => s =? "") (elems (ExactPhrases intent))
  && (SiteFilter intent =? "")
  && (FileType intent =? "")
  && forallb (fun s => s =? "") (elems (ExcludeWords intent))
  && (DateRange intent =? "").

(** The intent whose site filter is written at the end of the main query
    instead. *)
Definition siteInMainQuery (intent : SearchIntent) : SearchIntent :=
  {| MainQuery := MainQuery intent ++ " " ++ sitePart (SiteFilter intent);
     ExactPhrases := ExactPhrases intent;
     SiteFilter := "";
     FileType := FileType intent;
     ExcludeWords := ExcludeWords intent;
     DateRange := DateRange intent |}.

(** ** The prompt of a request body *)

(** Whether a key names the [prompt] field of the request. *)
Definition namesPrompt (key : string) : bool :=
  match json.findField [("prompt", fPrompt)] key with
  | Some _ => true
  | None => false
  end.

(** The prompt the members of a request object give, [cur] being the
    prompt so far: each member naming the field replaces it when it holds
    a string and keeps it when it holds [null]; [None] when such a member
    holds anything else. *)
Fixpoint promptIn (members : list (string * json.value)) (cur : string)
  : option string :=
  match members with
  | [] => Some cur
  | (key, v) :: rest =>
      if namesPrompt key then
        match v with
        | json.Str s => promptIn rest s
        | json.Null => promptIn rest cur
        | _ => None
        end
      else promptIn rest cur
  end.

(** The prompt a request body holds: the empty one for [null]; [None] for
    a value that is neither [null] nor an object. *)
Definition promptOf (v : json.value) : option string :=
  match v with
  | json.Null => Some ""
  | json.Object members => promptIn members ""
  | _ => None
  end.

(** ** Shapes of provider responses and of reply contents *)

(** Whether a key names a field of the provider response. *)
Definition namesResponseField (key : string) : bool :=
  match json.findField [("choices", fChoices); ("error", fError)] key with
  | Some _ => true
  | None => false
  end.

(** A byte that is ASCII and no space. *)
Definition solidByte (c : ascii) : bool :=
  (byte_val c <? utf8.RuneSelf)%N && negb (strings.asciiSpace c).

(** A text whose first and last bytes are ASCII and no spaces, as a JSON
    object between its braces is. *)
Definition solid (s : string) : bool :=
  match s, strings.reverse s with
  | String first _, String last _ => solidByte first && solidByte last
  | _, _ => false
  end.

(** ** The values of the fields of an intent *)

(** A list of strings as a JSON value: [null] for nil. *)
Definition listValue (s : slice string) : json.value :=
  match s with
  | None => json.Null
  | Some l => json.Array (map json.Str l)
  end.

(** The value a field of the intent holds, as a JSON value. *)
Definition fieldValue (f : intentField) (intent : SearchIntent) : json.value :=
  match f with
  | fMainQuery => json.Str (MainQuery intent)
  | fExactPhrases => listValue (ExactPhrases intent)
  | fSiteFilter => json.Str (SiteFilter intent)
  | fFileType => json.Str (FileType intent)
  | fExcludeWords => listValue (ExcludeWords intent)
  | fDateRange => json.Str (DateRange intent)
  end.

Definition isStr (v : json.value) : bool :=
  match v with
  | json.Str _ => true
  | _ => false
  end.

(** A value that fills a field of a given shape whatever the field held:
    a string, or an array of strings. *)
Definition definite (sh : shape) (v : json.value) : bool :=
  match sh, v with
  | aString, json.Str _ => true
  | aStringList, json.Array elements => forallb isStr elements
  | _, _ => false
  end.

(** ** Lemmas on the loops of the builder *)

Section Loops.
Variable render : string -> string.

Lemma loop_appends (l : list string) (acc : list string) :
  fold_left
    (fun queryParts s =>
       if s =? "" then queryParts else slice_append queryParts (render s))
    l acc
  = (acc ++ map render (filter nonEmpty l))%list.
Proof.
  revert acc.
  induction l as [|s l IH]; intros acc; simpl.
  - now rewrite app_nil_r.
  - rewrite IH. unfold nonEmpty, slice_append.
    destruct (s =? ""); simpl.
    + reflexivity.
    + now rewrite <- app_assoc.
Qed.

Lemma optional_appends (field : string) (acc : list string) :
  (if field =? "" then acc else slice_append acc (render field))
  = (acc ++ optionalClause render field)%list.
Proof.
  unfold optionalClause, slice_append.
  destruct (field =? ""); [now rewrite app_nil_r | reflexivity].
Qed.
End Loops.

Lemma queryParts_in_order (intent : SearchIntent) :
  queryParts intent = clausesInOrder intent.
Proof.
  unfold queryParts, clausesInOrder.
  rewrite !loop_appends.
  rewrite (optional_appends (fun s => s)), !optional_appends.
  simpl. now rewrite <- !app_assoc.
Qed.

(** ** Lemmas on [strings] *)

Lemma string_app_assoc (a b c : string) : (a ++ b) ++ c = a ++ b ++ c.
Proof. induction a as [|x a IH]; simpl; [reflexivity | now rewrite IH]. Qed.

Lemma ContainsByte_app (a b : string) (c : ascii) :
  strings.ContainsByte (a ++ b) c
  = strings.ContainsByte a c || strings.ContainsByte b c.
Proof.
  induction a as [|x a IH]; simpl; [reflexivity|].
  now rewrite IH, orb_assoc.
Qed.

Lemma Cut_absent (s : string) (c : ascii) :
  strings.ContainsByte s c = false -> strings.Cut s c = (s, "", false).
Proof.
  induction s as [|x s IH]; simpl; [reflexivity|].
  intros H. apply orb_false_iff in H as [Hx Hs].
  now rewrite Hx, (IH Hs).
Qed.

Lemma Cut_first (a b : string) (c : ascii) :
  strings.ContainsByte a c = false ->
  strings.Cut (a ++ String c b) c = (a, b, true).
Proof.
  induction a as [|x a IH]; simpl.
  - now rewrite Ascii.eqb_refl.
  - intros H. apply orb_false_iff in H as [Hx Ha].
    now rewrite Hx, (IH Ha).
Qed.

Lemma SplitByte_absent (s : string) (c : ascii) :
  strings.ContainsByte s c = false -> strings.SplitByte s c = [s].
Proof.
  induction s as [|x s IH]; simpl; [reflexivity|].
  intros H. apply orb_false_iff in H as [Hx Hs].
  now rewrite Hx, (IH Hs).
Qed.

(** ** Lemmas on [net/url] *)

(** Case analysis on the 256 bytes. *)
Ltac each_byte c :=
  destruct c as [[] [] [] [] [] [] [] []].

Lemma QueryUnescape_escapeByte (c : ascii) (r : string) :
  url.QueryUnescape (url.escapeByte c ++ r)
  = option_map (String c) (url.QueryUnescape r).
Proof. each_byte c; reflexivity. Qed.

Lemma QueryUnescape_QueryEscape (s : string) :
  url.QueryUnescape (url.QueryEscape s) = Some s.
Proof.
  induction s as [|c s IH]; simpl; [reflexivity|].
  now rewrite QueryUnescape_escapeByte, IH.
Qed.

Lemma escapeByte_no_delimiter (c d : ascii) :
  delimiter d = true -> strings.ContainsByte (url.escapeByte c) d = false.
Proof.
  intros Hd.
  assert (Hcases : d = "#"%char \/ d = "?"%char \/ d = "&"%char
                   \/ d = "="%char \/ d = ";"%char).
  { unfold delimiter in Hd.
    repeat (apply orb_true_iff in Hd as [Hd|Hd]);
      apply Ascii.eqb_eq in Hd; auto 6. }
  destruct Hcases as [->|[->|[->|[->| ->]]]]; each_byte c; reflexivity.
Qed.

Lemma QueryEscape_no_delimiter (s : string) (d : ascii) :
  delimiter d = true -> strings.ContainsByte (url.QueryEscape s) d = false.
Proof.
  intros Hd. induction s as [|c s IH]; simpl; [reflexivity|].
  now rewrite ContainsByte_app, escapeByte_no_delimiter, IH.
Qed.

Lemma QueryEscape_app (a b : string) :
  url.QueryEscape (a ++ b) = url.QueryEscape a ++ url.QueryEscape b.
Proof.
  induction a as [|c a IH]; simpl; [reflexivity|].
  now rewrite IH, string_app_assoc.
Qed.

Lemma Encode_q (v : string) :
  url.Encode (url.Add [] "q" v) = "q=" ++ url.QueryEscape v.
Proof. reflexivity. Qed.

Lemma RawQuery_search (v : string) :
  url.RawQuery (baseURL ++ "?q=" ++ url.QueryEscape v)
  = "q=" ++ url.QueryEscape v.
Proof.
  unfold url.RawQuery.
  rewrite Cut_absent.
  - change (baseURL ++ "?q=" ++ url.QueryEscape v)
      with (baseURL ++ String "?" ("q=" ++ url.QueryEscape v)).
    now rewrite Cut_first.
  - rewrite !ContainsByte_app, QueryEscape_no_delimiter; reflexivity.
Qed.

Lemma ParseQuery_q (v : string) :
  url.ParseQuery ("q=" ++ url.QueryEscape v) = ([("q", [v])], false).
Proof.
  unfold url.ParseQuery.
  rewrite SplitByte_absent
    by (rewrite ContainsByte_app, QueryEscape_no_delimiter; reflexivity).
  cbn [fold_left].
  change ("q=" ++ url.QueryEscape v =? "") with false. cbv iota.
  unfold url.parsePiece.
  rewrite ContainsByte_app, QueryEscape_no_delimiter by reflexivity.
  cbn [strings.ContainsByte orb Ascii.eqb Bool.eqb].
  change ("q=" ++ url.QueryEscape v)
    with ("q" ++ String "=" (url.QueryEscape v)).
  rewrite Cut_first by reflexivity.
  now rewrite QueryUnescape_QueryEscape.
Qed.

Lemma decoded_q_search (v : string) :
  decoded_q (baseURL ++ "?q=" ++ url.QueryEscape v) = Some v.
Proof.
  unfold decoded_q. now rewrite RawQuery_search, ParseQuery_q.
Qed.

Lemma constructSearchQuery_url (intent : SearchIntent) :
  constructSearchQuery (Some intent)
  = Returns (baseURL ++ "?q="
               ++ url.QueryEscape (strings.Join (queryParts intent) " ")).
Proof. reflexivity. Qed.

(** ** Lemmas on sublists and lengths *)

Lemma string_length_app (a b : string) :
  String.length (a ++ b) = String.length a + String.length b.
Proof. induction a as [|c a IH]; simpl; [reflexivity | now rewrite IH]. Qed.

Lemma sublist_refl {A : Type} (l : list A) : sublist l l.
Proof. induction l; constructor; assumption. Qed.

Lemma sublist_nil_l {A : Type} (l : list A) : sublist [] l.
Proof. induction l; constructor; assumption. Qed.

Lemma sublist_app {A : Type} (s1 l1 s2 l2 : list A) :
  sublist s1 l1 -> sublist s2 l2 -> sublist (s1 ++ s2) (l1 ++ l2).
Proof.
  intros H1 H2. induction H1; simpl; try (constructor; assumption).
  assumption.
Qed.

Lemma sublist_map {A B : Type} (f : A -> B) (s l : list A) :
  sublist s l -> sublist (map f s) (map f l).
Proof. intros H. induction H; simpl; constructor; assumption. Qed.

Lemma sublist_filter {A : Type} (p : A -> bool) (s l : list A) :
  sublist s l -> sublist (filter p s) (filter p l).
Proof.
  intros H. induction H; simpl; try constructor.
  - destruct (p x); [constructor|]; assumption.
  - destruct (p x); [constructor|]; assumption.
Qed.

Lemma sublist_optionalClause (render : string -> string) (a b : string) :
  fieldEmptier a b ->
  sublist (optionalClause render a) (optionalClause render b).
Proof.
  intros [-> | ->]; [apply sublist_nil_l | apply sublist_refl].
Qed.

Lemma JoinRest_sublist (sep : string) (s l : list string) :
  sublist s l ->
  String.length (strings.JoinRest s sep) <= String.length (strings.JoinRest l sep).
Proof.
  intros H. induction H; simpl; rewrite ?string_length_app; lia.
Qed.

Lemma Join_le_JoinRest (sep : string) (l : list string) :
  String.length (strings.Join l sep) <= String.length (strings.JoinRest l sep).
Proof.
  destruct l; simpl; rewrite ?string_length_app; lia.
Qed.

Lemma Join_sublist (sep : string) (s l : list string) :
  sublist s l ->
  String.length (strings.Join s sep) <= String.length (strings.Join l sep).
Proof.
  intros H. induction H.
  - constructor.
  - pose proof (Join_le_JoinRest sep l).
    simpl. rewrite string_length_app. lia.
  - pose proof (JoinRest_sublist sep _ _ H).
    simpl. rewrite !string_length_app. lia.
Qed.

Lemma queryParts_emptier (a b : SearchIntent) :
  emptier a b -> sublist (queryParts a) (queryParts b).
Proof.
  intros [Hm Hp Hs Hf He Hd].
  rewrite !queryParts_in_order. unfold clausesInOrder.
  repeat apply sublist_app;
    auto using sublist_optionalClause, sublist_map, sublist_filter.
Qed.

(** ** Lemmas on stray clauses *)

Lemma count_occ_map_none (f : string -> string) (l : list string) (x : string) :
  (forall s, In s l -> f s <> x) ->
  count_occ string_dec (map f l) x = 0.
Proof.
  intros H. apply count_occ_not_In. intros Hin.
  apply in_map_iff in Hin as (s & Hs & Hl). exact (H s Hl Hs).
Qed.

Lemma count_occ_optional_none (f : string -> string) (field x : string) :
  (field <> "" -> f field <> x) ->
  count_occ string_dec (optionalClause f field) x = 0.
Proof.
  intros H. unfold optionalClause.
  destruct (String.eqb_spec field ""); simpl; [reflexivity|].
  destruct (string_dec (f field) x); [now elim (H n) | reflexivity].
Qed.

Lemma count_occ_main (main x : string) :
  x <> "" ->
  count_occ string_dec (optionalClause (fun s => s) main) x
  = if main =? x then 1 else 0.
Proof.
  intros Hx. unfold optionalClause.
  destruct (String.eqb_spec main ""); simpl.
  - subst. destruct (String.eqb_spec "" x); [now elim Hx | reflexivity].
  - destruct (string_dec main x), (String.eqb_spec main x);
      congruence.
Qed.

Lemma nonEmpty_filter (l : list string) (s : string) :
  In s (filter nonEmpty l) -> s <> "".
Proof.
  intros H. apply filter_In in H as [_ H]. unfold nonEmpty in H.
  intros ->. discriminate.
Qed.

Lemma quoted_inj_empty (s : string) : quoted s = quoted "" -> s = "".
Proof.
  destruct s as [|c [|c' s]]; [reflexivity | discriminate |].
  unfold quoted; simpl. intros H. injection H as H.
  destruct s; discriminate.
Qed.

Lemma stray_clause_count (intent : SearchIntent) (x : string) :
  x = quoted "" \/ x = excludePart "" ->
  count_occ string_dec (queryParts intent) x
  = if MainQuery intent =? x then 1 else 0.
Proof.
  intros Hx. rewrite queryParts_in_order. unfold clausesInOrder.
  rewrite !count_occ_app.
  rewrite count_occ_main by (destruct Hx as [->| ->]; discriminate).
  rewrite !count_occ_map_none, !count_occ_optional_none;
    try (destruct (MainQuery intent =? x); reflexivity);
    try (intros _; destruct Hx as [->| ->]; discriminate).
  - intros s Hs%nonEmpty_filter. destruct Hx as [->| ->].
    + discriminate.
    + unfold excludePart. simpl. intros H. injection H as H. auto.
  - intros s Hs%nonEmpty_filter. destruct Hx as [->| ->].
    + intros H%quoted_inj_empty. auto.
    + discriminate.
Qed.

(** Go's [strings.Join] with a space is the clauses with single spaces
    between them. *)
Lemma string_app_nil_r (a : string) : a ++ "" = a.
Proof. induction a as [|x a IH]; simpl; [reflexivity | now rewrite IH]. Qed.

Lemma JoinRest_spaced (c : string) (rest : list string) :
  c ++ strings.JoinRest rest " " = spaced (c :: rest).
Proof.
  revert c. induction rest as [|c2 rest IH]; intros c.
  - apply string_app_nil_r.
  - change (spaced (c :: c2 :: rest)) with (c ++ " " ++ spaced (c2 :: rest)).
    cbn [strings.JoinRest]. now rewrite <- IH.
Qed.

Lemma Join_spaced (l : list string) : strings.Join l " " = spaced l.
Proof.
  destruct l as [|c rest]; [reflexivity|].
  unfold strings.Join. apply JoinRest_spaced.
Qed.

(** ** The scanner and [unquote] agree on string literals *)

Lemma reverse_onto_app (s acc : string) :
  strings.reverse_onto s acc = strings.reverse s ++ acc.
Proof.
  unfold strings.reverse. revert acc.
  induction s as [|c s IH]; intros acc; simpl; [reflexivity|].
  rewrite IH, (IH (String c "")), string_app_assoc. reflexivity.
Qed.

Lemma reverse_cons (c : ascii) (s : string) :
  strings.reverse (String c s) = strings.reverse s ++ String c "".
Proof. unfold strings.reverse at 1. simpl. apply reverse_onto_app. Qed.

Lemma literalRun_app (st : json.step) (a b : string) :
  literalRun st (a ++ b)
  = match literalRun st a with
    | Some st' => literalRun st' b
    | None => None
    end.
Proof.
  revert st. induction a as [|c a IH]; intros st; simpl; [reflexivity|].
  destruct (literalStep st c); [apply IH | reflexivity].
Qed.

(** Case analysis on what a step of the scanner returned. *)
Ltac scan_cases :=
  repeat match goal with
    | H : Some _ = Some _ |- _ => injection H as H; subst
    | H : None = Some _ |- _ => discriminate H
    | H : (if ?b then _ else _) = Some _ |- _ => destruct b eqn:?
    | H : match ?x with _ => _ end = Some _ |- _ => destruct x eqn:?
    end.

Lemma deliver_keeps (v : json.value) (s s' : json.scanner) :
  json.deliver v s = Some s' ->
  json.scanStep s' = json.scanStep s /\ json.literal s' = json.literal s.
Proof.
  unfold json.deliver. intros H. scan_cases; simpl; auto.
Qed.

Lemma popParseState_step (s s' : json.scanner) (v : json.value) :
  json.popParseState s v = Some s' -> inLiteral (json.scanStep s') = false.
Proof.
  unfold json.popParseState. intros H.
  destruct (json.parseState s) as [|p rest]; [discriminate|].
  apply deliver_keeps in H as [-> _]. simpl. now destruct rest.
Qed.

Lemma doStateEndValue_step (s s' : json.scanner) (c : ascii) :
  json.doStateEndValue s c = Some s' -> inLiteral (json.scanStep s') = false.
Proof.
  unfold json.doStateEndValue, json.doStateEndTop. intros H.
  scan_cases; simpl; try reflexivity; eauto using popParseState_step.
Qed.

Lemma endNumber_step (s s' : json.scanner) (c : ascii) :
  json.endNumber s c = Some s' -> inLiteral (json.scanStep s') = false.
Proof.
  unfold json.endNumber. intros H.
  destruct (json.deliver _ s); [|discriminate].
  eauto using doStateEndValue_step.
Qed.

Lemma endLiteral_step (s s' : json.scanner) (v : json.value) :
  json.endLiteral s v = Some s' -> inLiteral (json.scanStep s') = false.
Proof.
  unfold json.endLiteral. intros H. now apply deliver_keeps in H as [-> _].
Qed.

Lemma not_inLiteral_kept (s : json.scanner) :
  inLiteral (json.scanStep s) = false -> literalKept s.
Proof. unfold literalKept. intros ->. discriminate. Qed.

Lemma doStateBeginValue_kept (s s' : json.scanner) (c : ascii) :
  inLiteral (json.scanStep s) = false ->
  json.doStateBeginValue s c = Some s' -> literalKept s'.
Proof.
  unfold json.doStateBeginValue, json.pushParseState. intros Hs H.
  scan_cases; try (apply not_inLiteral_kept; simpl; first [assumption | reflexivity]).
  intros _. reflexivity.
Qed.

Lemma doStateBeginString_kept (s s' : json.scanner) (c : ascii) :
  inLiteral (json.scanStep s) = false ->
  json.doStateBeginString s c = Some s' -> literalKept s'.
Proof.
  unfold json.doStateBeginString. intros Hs H.
  scan_cases; try (apply not_inLiteral_kept; simpl; first [assumption | reflexivity]).
  intros _. reflexivity.
Qed.

(** One more byte of a literal. *)
Lemma more_kept (s : json.scanner) (st : json.step) (c : ascii) :
  literalKept s ->
  inLiteral (json.scanStep s) = true ->
  literalStep (json.scanStep s) c = Some st ->
  literalKept (json.more s st c).
Proof.
  unfold literalKept. intros Hkept Hin Hstep _. simpl.
  rewrite reverse_cons, literalRun_app, (Hkept Hin). simpl.
  now rewrite Hstep.
Qed.

Lemma scan_kept (s s' : json.scanner) (c : ascii) :
  literalKept s -> json.scan s c = Some s' -> literalKept s'.
Proof.
  intros Hkept H.
  unfold json.scan, json.doState0, json.doStateESign, json.doStateEndTop in H.
  destruct (json.scanStep s) eqn:Hstep; scan_cases;
    first
      [ apply more_kept; [assumption | now rewrite Hstep |];
        rewrite Hstep; simpl;
        repeat match goal with
          | E : _ = true |- _ => rewrite E
          | E : _ = false |- _ => rewrite E
          end; reflexivity
      | eapply doStateBeginValue_kept; [|eassumption]; now rewrite Hstep
      | eapply doStateBeginString_kept; [|eassumption]; now rewrite Hstep
      | apply not_inLiteral_kept;
        first
          [ now rewrite Hstep
          | reflexivity
          | eapply doStateEndValue_step; eassumption
          | eapply endNumber_step; eassumption
          | eapply endLiteral_step; eassumption
          | match goal with
            | H : json.deliver _ _ = Some _ |- _ =>
                apply deliver_keeps in H as [-> _]; reflexivity
            end ] ].
Qed.

Lemma scanAll_kept (data : string) (s s' : json.scanner) :
  literalKept s -> json.scanAll s data = Some s' -> literalKept s'.
Proof.
  revert s. induction data as [|c data IH]; intros s Hkept; simpl.
  - now intros [= <-].
  - destruct (json.scan s c) eqn:Hscan; [|discriminate].
    eauto using scan_kept.
Qed.

(** The bytes that follow the first byte of a rune of several bytes are
    not ASCII. *)
Lemma DecodeRune_highBytes (c : ascii) (r : string) (rr : utf8.rune) (size : nat) :
  utf8.DecodeRune (String c r) = (rr, size) -> highBytes (size - 1) r = true.
Proof.
  unfold utf8.DecodeRune.
  assert (Hcont : forall b, utf8.cont b = true -> (utf8.RuneSelf <=? b)%N = true).
  { unfold utf8.cont, utf8.between, utf8.RuneSelf. intros b H.
    apply andb_true_iff in H as [H _]. exact H. }
  assert (Hlead : forall b sz lo hi x,
             utf8.leading b = Some (sz, lo, hi) ->
             utf8.between lo hi x = true -> (utf8.RuneSelf <=? x)%N = true).
  { unfold utf8.leading, utf8.between, utf8.RuneSelf. intros b sz lo hi x H Hx.
    apply andb_true_iff in Hx as [Hlo _]. apply N.leb_le in Hlo. apply N.leb_le.
    repeat match type of H with
           | (if ?t then _ else _) = _ => destruct t
           end; inversion H; subst; lia. }
  destruct (byte_val c <? utf8.RuneSelf)%N; [now intros [= _ <-]|].
  destruct (utf8.leading (byte_val c)) as [[[sz lo] hi]|] eqn:Hl;
    [|now intros [= _ <-]].
  destruct r as [|c1 r1]; [now intros [= _ <-]|].
  destruct (utf8.between lo hi (byte_val c1)) eqn:H1; simpl negb; cbv iota;
    [|now intros [= _ <-]].
  pose proof (Hlead _ _ _ _ _ Hl H1) as Hb1.
  destruct (sz <=? 2)%nat; [intros [= _ <-]; simpl; now rewrite Hb1|].
  destruct r1 as [|c2 r2]; [now intros [= _ <-]|].
  destruct (utf8.cont (byte_val c2)) eqn:H2; simpl negb; cbv iota;
    [|now intros [= _ <-]].
  pose proof (Hcont _ H2) as Hb2.
  destruct (sz <=? 3)%nat; [intros [= _ <-]; simpl; now rewrite Hb1, Hb2|].
  destruct r2 as [|c3 r3]; [now intros [= _ <-]|].
  destruct (utf8.cont (byte_val c3)) eqn:H3; simpl negb; cbv iota;
    [|now intros [= _ <-]].
  pose proof (Hcont _ H3) as Hb3.
  intros [= _ <-]; simpl; now rewrite Hb1, Hb2, Hb3.
Qed.

Lemma high_byte_stays (c : ascii) :
  (utf8.RuneSelf <=? byte_val c)%N = true ->
  literalStep json.stateInString c = Some json.stateInString.
Proof.
  intros H. unfold literalStep.
  destruct (Ascii.eqb_spec c dquote) as [->|_]; [discriminate H|].
  destruct (Ascii.eqb_spec c json.backslash) as [->|_]; [discriminate H|].
  destruct (byte_val c <? 32)%N eqn:E; [|reflexivity].
  apply N.ltb_lt in E. apply N.leb_le in H. unfold utf8.RuneSelf in H. lia.
Qed.

Lemma option_map_some {A B : Type} (f : A -> B) (o : option A) :
  (exists a, o = Some a) -> exists b, option_map f o = Some b.
Proof. intros [a ->]. simpl. eauto. Qed.

Lemma simpleEscape_defined (e : ascii) :
  Ascii.eqb e "b" || Ascii.eqb e "f" || Ascii.eqb e "n" || Ascii.eqb e "r"
  || Ascii.eqb e "t" || Ascii.eqb e json.backslash || Ascii.eqb e "/"
  || Ascii.eqb e dquote = true ->
  exists x, json.simpleEscape e = Some x.
Proof.
  unfold json.simpleEscape. intros H.
  destruct (Ascii.eqb e dquote), (Ascii.eqb e json.backslash), (Ascii.eqb e "/"),
    (Ascii.eqb e "'"), (Ascii.eqb e "b"), (Ascii.eqb e "f"), (Ascii.eqb e "n"),
    (Ascii.eqb e "r"), (Ascii.eqb e "t"); simpl in *; eauto; discriminate.
Qed.

(** Four hex digits, as the scanner checks them after [\u]. *)
Lemma literalRun_u4 (h1 h2 h3 h4 : ascii) (r : string) :
  literalRun json.stateInStringEscU (String h1 (String h2 (String h3 (String h4 r))))
  = Some json.stateInString ->
  (exists rr, json.getu4 h1 h2 h3 h4 = Some rr)
  /\ literalRun json.stateInString r = Some json.stateInString.
Proof.
  simpl. unfold json.getu4, json.hexDigit.
  destruct (url.ishex h1); simpl; [|intros [=]].
  destruct (url.ishex h2); simpl; [|intros [=]].
  destruct (url.ishex h3); simpl; [|intros [=]].
  destruct (url.ishex h4); simpl; [|intros [=]].
  intros Hr. split; [eexists; reflexivity | exact Hr].
Qed.

Lemma literalRun_u_short (r1 : string) :
  String.length r1 < 4 ->
  literalRun json.stateInStringEscU r1 <> Some json.stateInString.
Proof.
  destruct r1 as [|h1 [|h2 [|h3 [|h4 r2]]]]; simpl; try lia; intros _ H;
    repeat match type of H with
           | context [if ?b then _ else _] => destruct b; simpl in H
           end; discriminate H.
Qed.

Lemma unquoteFrom_accepts (n : nat) :
  forall (content : string) (k : nat),
    String.length content <= n ->
    highBytes k content = true ->
    literalRun json.stateInString content = Some json.stateInString ->
    exists text, json.unquoteFrom k content = Some text.
Proof.
  induction n as [|n IH]; intros content k Hlen Hk Hrun.
  - destruct content; [|simpl in Hlen; lia]. simpl. eauto.
  - destruct content as [|c r]; [simpl; eauto|].
    simpl in Hlen.
    destruct k as [|k'].
    + cbn [literalRun literalStep] in Hrun.
      cbn [json.unquoteFrom].
      destruct (Ascii.eqb c dquote) eqn:Hq; [discriminate|].
      destruct (Ascii.eqb c json.backslash) eqn:Hb.
      * destruct r as [|e r1]; [discriminate|].
        cbn [literalRun literalStep] in Hrun. simpl in Hlen.
        destruct (Ascii.eqb e "u") eqn:Hu.
        -- apply Ascii.eqb_eq in Hu. subst e.
           change (literalRun json.stateInStringEscU r1 = Some json.stateInString)
             in Hrun.
           destruct r1 as [|h1 [|h2 [|h3 [|h4 r2]]]];
             try (exfalso; revert Hrun; apply literalRun_u_short; simpl; lia).
           apply literalRun_u4 in Hrun as [[rr Hrr] Hrun2].
           rewrite Hrr. simpl in Hlen.
           assert (Hr2 : exists t, json.unquoteFrom 0 r2 = Some t)
             by (apply IH; [lia | reflexivity | assumption]).
           cbv zeta.
           destruct (json.IsSurrogate rr); [|now apply option_map_some].
           destruct r2 as [|b' [|u' [|g1 [|g2 [|g3 [|g4 r3]]]]]];
             try (now apply option_map_some).
           destruct (Ascii.eqb b' json.backslash) eqn:Hb';
             [|now apply option_map_some].
           destruct (Ascii.eqb u' "u") eqn:Hu'; [|now apply option_map_some].
           cbn [andb].
           destruct (json.getu4 g1 g2 g3 g4) as [rr1|]; [|now apply option_map_some].
           destruct (json.DecodeSurrogates rr rr1 =? utf8.RuneError)%N;
             [now apply option_map_some|].
           apply option_map_some. apply IH; [simpl in Hlen; lia | reflexivity |].
           apply Ascii.eqb_eq in Hb', Hu'. subst b' u'.
           change (literalRun json.stateInStringEscU
                     (String g1 (String g2 (String g3 (String g4 r3))))
                   = Some json.stateInString) in Hrun2.
           now apply literalRun_u4 in Hrun2 as [_ Hrun3].
        -- destruct (Ascii.eqb e "b" || Ascii.eqb e "f" || Ascii.eqb e "n"
                     || Ascii.eqb e "r" || Ascii.eqb e "t"
                     || Ascii.eqb e json.backslash || Ascii.eqb e "/"
                     || Ascii.eqb e dquote) eqn:Ho; [|discriminate].
           destruct (simpleEscape_defined e Ho) as [x ->].
           apply option_map_some. apply IH; [lia | reflexivity | assumption].
      * destruct (byte_val c <? 32)%N eqn:Hctl; [discriminate|].
        cbn [orb].
        destruct (byte_val c <? utf8.RuneSelf)%N eqn:Hascii.
        -- apply option_map_some. apply IH; [lia | reflexivity | assumption].
        -- destruct (utf8.DecodeRune (String c r)) as [rr size] eqn:Hdec.
           apply option_map_some. apply IH; [lia| |assumption].
           eapply DecodeRune_highBytes; eassumption.
    + cbn [highBytes] in Hk. apply andb_true_iff in Hk as [Hc Hk].
      cbn [literalRun] in Hrun. rewrite (high_byte_stays c Hc) in Hrun.
      cbn [json.unquoteFrom]. apply IH; [lia | assumption | assumption].
Qed.

(** In every run of the scanner, when a closing quote can come the bytes
    kept of the string literal are bytes that [unquote] accepts: the scanner
    never fails for a literal it let through. *)
Theorem scanned_literal_unquotes (data : string) (s : json.scanner) :
  json.scanAll json.reset data = Some s ->
  json.scanStep s = json.stateInString ->
  exists text, json.unquote (strings.reverse (json.literal s)) = Some text.
Proof.
  intros Hscan Hstep.
  assert (Hkept : literalKept s).
  { eapply scanAll_kept; [|eassumption]. apply not_inLiteral_kept. reflexivity. }
  unfold literalKept in Hkept. rewrite Hstep in Hkept.
  unfold json.unquote.
  eapply unquoteFrom_accepts; [apply le_n | reflexivity | now apply Hkept].
Qed.

(** ** Lemmas on the decoding of a reply *)

Lemma orElse_assoc {A : Type} (a b c : option A) :
  orElse (orElse a b) c = orElse a (orElse b c).
Proof. now destruct a. Qed.

Lemma orElse_None_r {A : Type} (a : option A) : orElse a None = a.
Proof. now destruct a. Qed.

Lemma saveError_orElse (saved : option json.error) (e : json.error) :
  json.saveError saved e = orElse saved (Some e).
Proof. now destruct saved. Qed.

Lemma decodeString_error (cur : string) (v : json.value) (saved : option json.error) :
  snd (json.decodeString cur v saved) = orElse saved (stringError v).
Proof.
  destruct v; simpl; rewrite ?saveError_orElse, ?orElse_None_r; reflexivity.
Qed.

Lemma decodeElems_error (backing : list string) (elements : list json.value)
  (saved : option json.error) :
  snd (json.decodeElems "" json.decodeString backing elements saved)
  = orElse saved (firstError (map stringError elements)).
Proof.
  revert backing saved.
  induction elements as [|v elements IH]; intros backing saved; simpl.
  - now rewrite orElse_None_r.
  - destruct backing as [|x backing'].
    + pose proof (decodeString_error "" v saved) as Hv.
      destruct (json.decodeString "" v saved) as [a saved1]; simpl in Hv.
      specialize (IH [] saved1).
      destruct (json.decodeElems "" json.decodeString [] elements saved1)
        as [[rest spare] saved2]; simpl in *.
      now rewrite IH, Hv, orElse_assoc.
    + pose proof (decodeString_error x v saved) as Hv.
      destruct (json.decodeString x v saved) as [a saved1]; simpl in Hv.
      specialize (IH backing' saved1).
      destruct (json.decodeElems "" json.decodeString backing' elements saved1)
        as [[rest spare] saved2]; simpl in *.
      now rewrite IH, Hv, orElse_assoc.
Qed.

Lemma decodeStrings_error (cur : slice string * list string) (v : json.value)
  (saved : option json.error) :
  snd (decodeStrings cur v saved) = orElse saved (shapeError aStringList v).
Proof.
  unfold decodeStrings, json.decodeSlice.
  destruct v; simpl; rewrite ?saveError_orElse, ?orElse_None_r; try reflexivity.
  destruct elements as [|v elements]; [simpl; now rewrite orElse_None_r|].
  pose proof (decodeElems_error (elems (fst cur) ++ snd cur) (v :: elements) saved)
    as H.
  now destruct (json.decodeElems "" json.decodeString _ (v :: elements) saved)
    as [[l spare] saved1].
Qed.

Lemma storeIntentField_error (f : intentField) (mem : intentMemory)
  (v : json.value) (saved : option json.error) :
  snd (storeIntentField f mem v saved)
  = orElse saved (shapeError (intentFieldShape f) v).
Proof.
  destruct f; unfold storeIntentField; simpl intentFieldShape;
    match goal with
    | |- context [json.decodeString ?c v saved] =>
        pose proof (decodeString_error c v saved) as H;
        destruct (json.decodeString c v saved); exact H
    | |- context [decodeStrings ?c v saved] =>
        pose proof (decodeStrings_error c v saved) as H;
        destruct (decodeStrings c v saved) as [[x spare] saved1]; exact H
    end.
Qed.

Lemma decodeMembers_error (members : list (string * json.value))
  (mem : intentMemory) (saved : option json.error) :
  snd (fold_left
         (fun '(mem, saved) '(key, v) =>
            match json.findField intentFields key with
            | Some f => storeIntentField f mem v saved
            | None => (mem, saved)
            end)
         members (mem, saved))
  = orElse saved (firstError (map memberError members)).
Proof.
  revert mem saved.
  induction members as [|[key v] members IH]; intros mem saved; simpl.
  - now rewrite orElse_None_r.
  - unfold memberError at 1; simpl.
    destruct (json.findField intentFields key) as [f|].
    + pose proof (storeIntentField_error f mem v saved) as Hf.
      destruct (storeIntentField f mem v saved) as [mem1 saved1]; simpl in Hf.
      now rewrite IH, Hf, orElse_assoc.
    + now rewrite IH.
Qed.

Lemma decodeIntentMemory_error (mem : intentMemory) (v : json.value)
  (saved : option json.error) :
  snd (decodeIntentMemory mem v saved) = orElse saved (intentError v).
Proof.
  unfold decodeIntentMemory, json.decodeStruct.
  destruct v; simpl; rewrite ?saveError_orElse, ?orElse_None_r; try reflexivity.
  apply decodeMembers_error.
Qed.

Lemma decodeSearchIntent_error (cur : SearchIntent) (v : json.value)
  (saved : option json.error) :
  snd (decodeSearchIntent cur v saved) = orElse saved (intentError v).
Proof.
  unfold decodeSearchIntent.
  pose proof (decodeIntentMemory_error (fresh cur) v saved) as H.
  now destruct (decodeIntentMemory (fresh cur) v saved).
Qed.

Lemma Unmarshal_intent_error (content : string) :
  snd (json.Unmarshal decodeSearchIntent content zeroSearchIntent)
  = replyError content.
Proof.
  unfold json.Unmarshal, replyError.
  destruct (json.parseText content) as [v|]; [|reflexivity].
  apply decodeSearchIntent_error.
Qed.

(** What [decodeSearchIntent] gives for an object, as the fold over its
    members. *)
Lemma decodeSearchIntent_members (cur : SearchIntent)
  (members : list (string * json.value)) (saved : option json.error) :
  decodeSearchIntent cur (json.Object members) saved
  = (theIntent (fst (decodeIntentMemory (fresh cur) (json.Object members) saved)),
     snd (decodeIntentMemory (fresh cur) (json.Object members) saved)).
Proof.
  unfold decodeSearchIntent.
  now destruct (decodeIntentMemory (fresh cur) (json.Object members) saved).
Qed.

(** A store into one field leaves the two lists alone unless the field is
    that list. *)
Lemma store_keeps_ExactPhrases (g : intentField) (mem : intentMemory)
  (v : json.value) (saved : option json.error) :
  sameField fExactPhrases g = false ->
  ExactPhrases (theIntent (fst (storeIntentField g mem v saved)))
  = ExactPhrases (theIntent mem).
Proof.
  destruct g; try discriminate; intros _; unfold storeIntentField;
    match goal with
    | |- context [json.decodeString ?c v saved] =>
        destruct (json.decodeString c v saved); reflexivity
    | |- context [decodeStrings ?c v saved] =>
        destruct (decodeStrings c v saved) as [[x spare] saved1]; reflexivity
    end.
Qed.

Lemma store_keeps_ExcludeWords (g : intentField) (mem : intentMemory)
  (v : json.value) (saved : option json.error) :
  sameField fExcludeWords g = false ->
  ExcludeWords (theIntent (fst (storeIntentField g mem v saved)))
  = ExcludeWords (theIntent mem).
Proof.
  destruct g; try discriminate; intros _; unfold storeIntentField;
    match goal with
    | |- context [json.decodeString ?c v saved] =>
        destruct (json.decodeString c v saved); reflexivity
    | |- context [decodeStrings ?c v saved] =>
        destruct (decodeStrings c v saved) as [[x spare] saved1]; reflexivity
    end.
Qed.

Section AbsentKey.
Variable f : intentField.
Variable field : SearchIntent -> slice string.
Hypothesis store_keeps :
  forall g mem v saved,
    sameField f g = false ->
    field (theIntent (fst (storeIntentField g mem v saved))) = field (theIntent mem).

Lemma decodeMembers_absent (members : list (string * json.value))
  (mem : intentMemory) (saved : option json.error) :
  absent f members = true ->
  field (theIntent
           (fst (fold_left
                   (fun '(mem, saved) '(key, v) =>
                      match json.findField intentFields key with
                      | Some g => storeIntentField g mem v saved
                      | None => (mem, saved)
                      end)
                   members (mem, saved))))
  = field (theIntent mem).
Proof.
  revert mem saved.
  induction members as [|[key v] members IH]; intros mem saved; simpl;
    [reflexivity|].
  intros H. apply andb_true_iff in H as [Hkey Hrest].
  unfold names in Hkey; simpl in Hkey.
  destruct (json.findField intentFields key) as [g|].
  - apply negb_true_iff in Hkey.
    pose proof (store_keeps g mem v saved Hkey) as Hg.
    destruct (storeIntentField g mem v saved) as [mem1 saved1]; simpl in Hg.
    now rewrite IH, Hg.
  - now rewrite IH.
Qed.

Lemma Unmarshal_absent (content : string) (members : list (string * json.value)) :
  json.parseText content = Some (json.Object members) ->
  absent f members = true ->
  field (fst (json.Unmarshal decodeSearchIntent content zeroSearchIntent))
  = field zeroSearchIntent.
Proof.
  intros Hparse Habsent. unfold json.Unmarshal. rewrite Hparse.
  rewrite decodeSearchIntent_members. cbn [fst].
  unfold decodeIntentMemory, json.decodeStruct.
  now rewrite decodeMembers_absent.
Qed.

End AbsentKey.

(** ** Lemmas on the extractor *)

Lemma analyze_sends_once (h : SearchHandler) (prompt : string) (w : World) :
  snd (analyzePromptWithOpenAI h prompt w) = afterRequest w (newRequest h prompt).
Proof.
  unfold analyzePromptWithOpenAI, Do, afterRequest.
  destruct (network w _); try reflexivity.
  destruct (json.Unmarshal decodeOpenAIResponse _ _) as [resp [e|]]; try reflexivity.
  destruct (Error resp); try reflexivity.
  destruct (elems (Choices resp)); try reflexivity.
  destruct (json.Unmarshal decodeSearchIntent _ _) as [intent [e|]]; reflexivity.
Qed.

(** What the extractor returns once a response with a first choice and no
    provider error was decoded. *)
Lemma analyze_first_choice (h : SearchHandler) (prompt : string) (w : World)
  (body : string) (resp : OpenAIResponse) (choice0 : Choice) (others : list Choice) :
  network w (slice_append (sent w) (newRequest h prompt)) = replies body ->
  json.Unmarshal decodeOpenAIResponse body zeroOpenAIResponse = (resp, None) ->
  Error resp = None ->
  elems (Choices resp) = choice0 :: others ->
  let content := strings.TrimSpace (MessageContent (Message choice0)) in
  let decoded := json.Unmarshal decodeSearchIntent content zeroSearchIntent in
  fst (analyzePromptWithOpenAI h prompt w)
  = match snd decoded with
    | Some err => (None, Some (errParsingIntent err content))
    | None =>
        (Some {| MainQuery := MainQuery (fst decoded);
                 ExactPhrases := emptyIfNil (ExactPhrases (fst decoded));
                 SiteFilter := SiteFilter (fst decoded);
                 FileType := FileType (fst decoded);
                 ExcludeWords := emptyIfNil (ExcludeWords (fst decoded));
                 DateRange := DateRange (fst decoded) |}, None)
    end.
Proof.
  intros Hnet Hresp Herr Hchoices content decoded.
  unfold analyzePromptWithOpenAI, Do.
  rewrite Hnet, Hresp, Herr, Hchoices.
  fold content. fold decoded.
  destruct decoded as [intent [e|]]; simpl; [reflexivity|].
  destruct intent as [m [p|] s f [x|] d]; reflexivity.
Qed.

(** ** The library models on sample inputs *)

Example TrimSpace_ascii :
  strings.TrimSpace (String json.lf "  {} " ++ String json.tab (String json.cr "")) = "{}".
Proof. reflexivity. Qed.

Example TrimSpace_unicode :
  strings.TrimSpace (" " ++ nbsp ++ " x y" ++ ideographicSpace ++ " " ++ nbsp) = "x y".
Proof. reflexivity. Qed.

Example TrimSpace_keeps_invalid_byte :
  strings.TrimSpace (" x" ++ String "128" " ") = "x" ++ String "128" "".
Proof. reflexivity. Qed.

Example DecodeRune_three_bytes :
  utf8.DecodeRune (ideographicSpace ++ "x") = (0x3000%N, 3).
Proof. reflexivity. Qed.

Example DecodeRune_overlong :
  utf8.DecodeRune (String "192" (String "128" "")) = (utf8.RuneError, 1).
Proof. reflexivity. Qed.

Example EncodeRune_DecodeRune_four_bytes :
  utf8.DecodeRune (utf8.EncodeRune 0x1F600%N) = (0x1F600%N, 4).
Proof. reflexivity. Qed.

Example QueryEscape_reserved :
  url.QueryEscape "a b&c=d/e?f#g%h+i~j*k" = "a+b%26c%3Dd%2Fe%3Ff%23g%25h%2Bi~j%2Ak".
Proof. reflexivity. Qed.

Example ParseQuery_pieces :
  url.ParseQuery "a=1&b=x+y&a=%41&&c&d=%zz"
  = ([("a", ["1"; "A"]); ("b", ["x y"]); ("c", [""])], true).
Proof. reflexivity. Qed.

Example parseText_nested :
  json.parseText (jsonText " {'a': [1, -2.5e+3, true, null, {}], 'b': 'x\ny'} ")
  = Some (json.Object
            [("a", json.Array [json.Number "1"; json.Number "-2.5e+3";
                               json.Bool true; json.Null; json.Object []]);
             ("b", json.Str (String "x" (String json.lf "y")))]).
Proof. vm_compute. reflexivity. Qed.

Example parseText_surrogate_pair :
  json.parseText (String dquote (utf8.EncodeRune 0x1F600%N)
                    ++ " \ud83d\ude00 \ud83d!" ++ String dquote "")
  = Some (json.Str (utf8.EncodeRune 0x1F600%N ++ " "
                      ++ utf8.EncodeRune 0x1F600%N ++ " "
                      ++ utf8.EncodeRune utf8.RuneError ++ "!")).
Proof. vm_compute. reflexivity. Qed.

Example parseText_rejects :
  map json.Valid
      [ ""; "nul"; "01"; "1."; "-"; "[1,]"; jsonText "{'a':1,}"; jsonText "{a:1}";
        jsonText "'a"; jsonText "'\x'"; "[1] x"; "1 2"; "]" ]
  = [ false; false; false; false; false; false; false; false;
      false; false; false; false; false ].
Proof. vm_compute. reflexivity. Qed.

Example parseText_accepts :
  map json.Valid
      [ "null"; " 0 "; "-0.5E-2"; "[]"; "{}"; jsonText "''"; "[[[]]]";
        jsonText "{'a':1,'a':2}" ]
  = [ true; true; true; true; true; true; true; true ].
Proof. vm_compute. reflexivity. Qed.

(** A key is matched by its exact name or with case ignored; a later
    member overrides an earlier one; [null] leaves a string as it is and
    makes a list nil. *)
Example Unmarshal_intent_members :
  json.Unmarshal decodeSearchIntent
    (jsonText "{'Main_Query':'a','main_query':'b','site_filter':'s','SITE_FILTER':null,'exact_phrases':['p'],'exact_phrases':null,'exclude_words':[],'other':[1]}")
    zeroSearchIntent
  = ({| MainQuery := "b"; ExactPhrases := None; SiteFilter := "s";
        FileType := ""; ExcludeWords := Some []; DateRange := "" |}, None).
Proof. vm_compute. reflexivity. Qed.

(** The worked example end to end: the reply of the model, carried in a
    provider response, gives the search URL of the worked example. *)
Example handleSearch_worked_example :
  fst (handleSearch exampleHandler
         (postPrompt "pdf research papers on machine learning from arxiv")
         (answering (responseWith
            "{\'main_query\':\'machine learning\',\'exact_phrases\':[\'research papers\'],\'site_filter\':\'arxiv.org\',\'file_type\':\'pdf\',\'exclude_words\':[\'blog\'],\'date_range\':\'2024\'}")))
  = SearchResult
      "https://www.google.com/search?q=machine+learning+%22research+papers%22+site%3Aarxiv.org+filetype%3Apdf+-blog+after%3A2024"
      (Some exampleIntent).
Proof. vm_compute. reflexivity. Qed.

(** A failed call and a failed read are returned as such. *)
Example analyze_transport_failures :
  fst (analyzePromptWithOpenAI exampleHandler "x"
         {| sent := []; network := fun _ => doFails "context canceled";
            writeError := None |})
  = (None, Some (errCallingOpenAI "context canceled"))
  /\ fst (analyzePromptWithOpenAI exampleHandler "x"
            {| sent := []; network := fun _ => readFails "unexpected EOF";
            writeError := None |})
     = (None, Some (errReadingBody "unexpected EOF")).
Proof. split; reflexivity. Qed.

(** The requests the handler answers without calling the extractor. *)
Example handleSearch_transport (w : World) :
  handleSearch exampleHandler {| RequestMethod := "OPTIONS"; RequestBody := None |} w
  = (WriteHeader 200, w)
  /\ handleSearch exampleHandler {| RequestMethod := "GET"; RequestBody := Some "" |} w
     = (HTTPError "Method not allowed" 405, w)
  /\ handleSearch exampleHandler {| RequestMethod := "POST"; RequestBody := None |} w
     = (HTTPError "Error reading request body" 400, w)
  /\ handleSearch exampleHandler
       {| RequestMethod := "POST"; RequestBody := Some "prompt=x" |} w
     = (HTTPError "Invalid request body" 400, w).
Proof. repeat split. Qed.

(** An array decoded into a slice that an earlier and longer array filled
    reuses the elements left past the length of the slice, and [null]
    leaves such an element as it is; the empty array and [null] drop the
    backing array; past the backing array the elements are zero values. *)
Example Unmarshal_spare_capacity :
  map (fun reply =>
         ExactPhrases (fst (json.Unmarshal decodeSearchIntent (jsonText reply)
                              zeroSearchIntent)))
      [ "{'exact_phrases':['a','b'],'exact_phrases':['x'],'exact_phrases':[null,null]}";
        "{'exact_phrases':['a','b'],'exact_phrases':[],'exact_phrases':[null,null]}";
        "{'exact_phrases':['a','b'],'exact_phrases':null,'exact_phrases':[null]}";
        "{'exact_phrases':['a'],'exact_phrases':[null,'c',null]}";
        "{'exact_phrases':['a','b','c'],'exact_phrases':['x'],'exact_phrases':[null,'y'],'exact_phrases':[null,null,null,null]}" ]
  = [ Some ["x"; "b"]; Some [""; ""]; Some [""]; Some ["a"; "c"; ""];
      Some ["x"; "y"; "c"; ""] ].
Proof. vm_compute. reflexivity. Qed.

Example Unmarshal_spare_choices :
  json.Unmarshal decodeOpenAIResponse
    (jsonText "{'choices':[{'message':{'content':'a'}},{'message':{'content':'b'}}],'choices':[{'message':{'content':'c'}}],'choices':[{},{'message':{}}]}")
    zeroOpenAIResponse
  = ({| Choices := Some [ {| Message := {| MessageContent := "c" |} |};
                          {| Message := {| MessageContent := "b" |} |} ];
        Error := None |}, None).
Proof. vm_compute. reflexivity. Qed.

(** When the result cannot be written to the client, the handler answers
    with an error of its own, the provider having been called. *)
Example handleSearch_write_fails :
  let w :=
    {| sent := [];
       network := fun _ => replies (responseWith "{\'main_query\':\'x\'}");
       writeError := Some "write: broken pipe" |} in
  handleSearch exampleHandler (postPrompt "x") w
  = (HTTPError "Error encoding response" 500,
     afterRequest w (newRequest exampleHandler "x")).
Proof. vm_compute. reflexivity. Qed.

(** ** The query builder: the claims *)

(** C1. For every intent, the clauses the builder emits are, in this
    order, the main query (when non-empty), each non-empty exact phrase
    between double quotes in input order, [site:] with the site filter
    (when non-empty), [filetype:] with the file type (when non-empty),
    [-] with each non-empty exclude word in input order, and [after:] with
    the date range (when non-empty); the decoded [q] parameter of the
    returned URL is these clauses with one space between each and the
    next.  The clauses are written out here, independently of the
    builder. *)
Theorem clause_order (intent : SearchIntent) :
  let clauses :=
    ((if MainQuery intent =? "" then [] else [MainQuery intent])
     ++ map (fun phrase => String dquote (phrase ++ String dquote "")%string)
          (filter (fun phrase => negb (phrase =? "")) (elems (ExactPhrases intent)))
     ++ (if SiteFilter intent =? "" then [] else [("site:" ++ SiteFilter intent)%string])
     ++ (if FileType intent =? "" then [] else [("filetype:" ++ FileType intent)%string])
     ++ map (fun word => ("-" ++ word)%string)
          (filter (fun word => negb (word =? "")) (elems (ExcludeWords intent)))
     ++ (if DateRange intent =? "" then [] else [("after:" ++ DateRange intent)%string]))%list in
  queryParts intent = clauses
  /\ decoded_q_of (constructSearchQuery (Some intent)) = Some (spaced clauses)
  /\ spaced [] = ""
  /\ (forall clause, spaced [clause] = clause)
  /\ (forall first second rest,
         spaced (first :: second :: rest) = first ++ " " ++ spaced (second :: rest)).
Proof.
  intros clauses.
  assert (E : clauses = clausesInOrder intent) by reflexivity.
  rewrite E. split; [apply queryParts_in_order|].
  split; [|repeat split].
  rewrite constructSearchQuery_url. unfold decoded_q_of.
  now rewrite decoded_q_search, queryParts_in_order, Join_spaced.
Qed.

(** C2. For the intent with main query [machine learning], exact phrase
    [research papers], site filter [arxiv.org], file type [pdf], exclude
    word [blog] and date range [2024], the decoded [q] parameter of the
    returned URL is exactly the text
    machine learning, quoted research papers, site:arxiv.org filetype:pdf
    -blog after:2024, and the URL itself is the encoded form shown. *)
Theorem worked_example :
  decoded_q_of (constructSearchQuery (Some exampleIntent))
  = Some ("machine learning "
            ++ String dquote ("research papers"
            ++ String dquote " site:arxiv.org filetype:pdf -blog after:2024"))
  /\ constructSearchQuery (Some exampleIntent)
     = Returns "https://www.google.com/search?q=machine+learning+%22research+papers%22+site%3Aarxiv.org+filetype%3Apdf+-blog+after%3A2024".
Proof. split; vm_compute; reflexivity. Qed.

(** C3. The URL the builder returns is the fixed base URL, [?q=] and the
    query-escaped text of the clauses with single spaces between them, the
    clauses being those of the fixed sequence, each with its quotes or its
    prefix; parsed back, its query holds the single parameter [q] with
    that text as its only value.  The escaping is applied byte by byte to
    the whole value: a space becomes [+], a double quote [%22], a colon
    [%3A], and a hyphen, being unreserved, stands for itself. *)
Theorem url_encoding (intent : SearchIntent) :
  let joined := spaced (clausesInOrder intent) in
  let u := "https://www.google.com/search?q=" ++ url.QueryEscape joined in
  constructSearchQuery (Some intent) = Returns u
  /\ url.ParseQuery (url.RawQuery u) = ([("q", [joined])], false)
  /\ (forall a b, url.QueryEscape (a ++ b) = url.QueryEscape a ++ url.QueryEscape b)
  /\ url.QueryEscape " " = "+"
  /\ url.QueryEscape (String dquote "") = "%22"
  /\ url.QueryEscape ":" = "%3A"
  /\ url.QueryEscape "-" = "-"
  /\ url.QueryEscape
       ("a b " ++ String dquote ("c d" ++ String dquote " site:e.f -g"))
     = "a+b+%22c+d%22+site%3Ae.f+-g".
Proof.
  intros joined u.
  assert (Eu : u = baseURL ++ "?q=" ++ url.QueryEscape joined) by reflexivity.
  assert (Ej : strings.Join (queryParts intent) " " = joined).
  { unfold joined. now rewrite queryParts_in_order, Join_spaced. }
  rewrite Eu. repeat split.
  - now rewrite constructSearchQuery_url, Ej.
  - now rewrite RawQuery_search, ParseQuery_q.
  - apply QueryEscape_app.
Qed.

(** C6. An entry of [exact_phrases] or [exclude_words] that is the empty
    string emits no clause: the builder returns the same URL as for the
    intent with these entries removed, and a clause that is an empty
    quoted pair or a bare hyphen occurs among the emitted clauses only as
    the main query itself (once, when the main query is that very text). *)
Theorem empty_entries_emit_nothing (intent : SearchIntent) :
  constructSearchQuery (Some intent)
  = constructSearchQuery (Some (withoutEmptyEntries intent))
  /\ count_occ string_dec (queryParts intent) (String dquote (String dquote ""))
     = (if MainQuery intent =? String dquote (String dquote "") then 1 else 0)
  /\ count_occ string_dec (queryParts intent) "-"
     = (if MainQuery intent =? "-" then 1 else 0).
Proof.
  split; [|split].
  - rewrite !constructSearchQuery_url, !queryParts_in_order.
    unfold clausesInOrder, withoutEmptyEntries; simpl.
    assert (H : forall s : slice string,
               filter nonEmpty (elems (option_map (filter nonEmpty) s))
               = filter nonEmpty (elems s)).
    { intros [l|]; simpl; [|reflexivity].
      induction l as [|x l IH]; simpl; [reflexivity|].
      destruct (nonEmpty x) eqn:E; simpl; rewrite ?E, IH; reflexivity. }
    now rewrite !H.
  - apply stray_clause_count. now left.
  - apply stray_clause_count. now right.
Qed.

(** C7. For the intent whose six fields are all empty, the lists being
    nil or empty, the builder returns the base URL with parameter [q]
    present and empty; the decoded [q] is the empty string. *)
Theorem all_empty_intent :
  (forall phrases words : bool,
     let intent :=
       emptyIntent (if phrases then Some [] else None)
                   (if words then Some [] else None) in
     constructSearchQuery (Some intent)
     = Returns "https://www.google.com/search?q=")
  /\ decoded_q "https://www.google.com/search?q=" = Some "".
Proof.
  split; [intros [] []|]; reflexivity.
Qed.

(** C9. For every intent, whatever mixture of its fields is empty, the
    builder returns a URL (it does not panic), and that URL parses back to
    its query text.  An emptier intent, one with some fields emptied or
    some list entries dropped, yields a sub-sequence of the clauses and a
    query that is no longer. *)
Theorem build_total (intent : SearchIntent) :
  (exists u : string,
      constructSearchQuery (Some intent) = Returns u
      /\ decoded_q u = Some (strings.Join (queryParts intent) " "))
  /\ (forall smaller : SearchIntent,
         emptier smaller intent ->
         sublist (queryParts smaller) (queryParts intent)
         /\ String.length (strings.Join (queryParts smaller) " ")
            <= String.length (strings.Join (queryParts intent) " ")).
Proof.
  split.
  - eexists. split; [apply constructSearchQuery_url | apply decoded_q_search].
  - intros smaller H. pose proof (queryParts_emptier _ _ H) as Hsub.
    split; [exact Hsub | now apply Join_sublist].
Qed.

Lemma build_total_witness :
  sublist (queryParts (emptyIntent None (Some ["blog"]))) (queryParts exampleIntent)
  /\ String.length (strings.Join (queryParts (emptyIntent None (Some ["blog"]))) " ")
     <= String.length (strings.Join (queryParts exampleIntent) " ").
Proof.
  apply (proj2 (build_total exampleIntent)).
  constructor; simpl;
    first [ now left | apply sublist_nil_l | apply sublist_refl ].
Defined.



(** ** The intent extractor: the claims *)

(** C4. Whenever the extractor returns without error, it returns an
    intent (a record of the six fields) whose two lists are not nil, so
    the builder, given that intent, returns a URL.  When the reply is an
    object that the extractor accepts and that has no key naming
    [exact_phrases] (or [exclude_words]), the list returned for it is the
    empty one.  For instance a reply with the two keys [main_query] and
    [site_filter] yields empty lists, and the builder emits no phrase
    clause for it. *)
Theorem extracted_lists_never_nil :
  (forall (h : SearchHandler) (prompt : string) (w : World),
      snd (fst (analyzePromptWithOpenAI h prompt w)) = None ->
      exists intent : SearchIntent,
        fst (fst (analyzePromptWithOpenAI h prompt w)) = Some intent
        /\ ExactPhrases intent <> None
        /\ ExcludeWords intent <> None
        /\ constructSearchQuery (Some intent)
           = Returns (baseURL ++ "?q="
                        ++ url.QueryEscape (strings.Join (queryParts intent) " ")))
  /\ (forall (h : SearchHandler) (prompt : string) (w : World) (body : string)
             (resp : OpenAIResponse) (choice0 : Choice) (others : list Choice)
             (members : list (string * json.value)),
         network w (slice_append (sent w) (newRequest h prompt)) = replies body ->
         json.Unmarshal decodeOpenAIResponse body zeroOpenAIResponse = (resp, None) ->
         Error resp = None ->
         elems (Choices resp) = choice0 :: others ->
         json.parseText (strings.TrimSpace (MessageContent (Message choice0)))
         = Some (json.Object members) ->
         firstError (map memberError members) = None ->
         exists intent : SearchIntent,
           fst (analyzePromptWithOpenAI h prompt w) = (Some intent, None)
           /\ (absent fExactPhrases members = true -> ExactPhrases intent = Some [])
           /\ (absent fExcludeWords members = true -> ExcludeWords intent = Some []))
  /\ (let reply := "{\'main_query\':\'x\',\'site_filter\':\'example.com\'}" in
      let intent :=
        {| MainQuery := "x"; ExactPhrases := Some []; SiteFilter := "example.com";
           FileType := ""; ExcludeWords := Some []; DateRange := "" |} in
      fst (analyzePromptWithOpenAI exampleHandler "x on example.com"
             (answering (responseWith reply)))
      = (Some intent, None)
      /\ queryParts intent = ["x"; "site:example.com"]).
Proof.
  split; [|split; [|split; vm_compute; reflexivity]].
  - intros h prompt w.
    unfold analyzePromptWithOpenAI, Do.
    destruct (network w _); try discriminate.
    destruct (json.Unmarshal decodeOpenAIResponse _ _) as [resp [e|]];
      try discriminate.
    destruct (Error resp); try discriminate.
    destruct (elems (Choices resp)); try discriminate.
    destruct (json.Unmarshal decodeSearchIntent _ _) as [intent [e|]];
      try discriminate.
    intros _. eexists. split; [reflexivity|].
    destruct intent as [m [p|] s f [x|] d]; simpl;
      repeat split; discriminate.
  - intros h prompt w body resp choice0 others members
           Hnet Hresp Herr Hchoices Hparse Hok.
    pose proof (analyze_first_choice h prompt w body resp choice0 others
                  Hnet Hresp Herr Hchoices) as Hfst.
    cbv zeta in Hfst.
    rewrite Unmarshal_intent_error in Hfst.
    unfold replyError in Hfst. rewrite Hparse in Hfst. simpl in Hfst.
    rewrite Hok in Hfst.
    eexists. split; [exact Hfst|]. simpl. split; intros Habsent.
    + now rewrite (Unmarshal_absent fExactPhrases ExactPhrases
                     store_keeps_ExactPhrases _ _ Hparse Habsent).
    + now rewrite (Unmarshal_absent fExcludeWords ExcludeWords
                     store_keeps_ExcludeWords _ _ Hparse Habsent).
Qed.

Lemma extracted_lists_never_nil_witness :
  (exists intent : SearchIntent,
      fst (fst (analyzePromptWithOpenAI exampleHandler "anything"
                  (answering (responseWith "{}"))))
      = Some intent
      /\ ExactPhrases intent <> None
      /\ ExcludeWords intent <> None
      /\ constructSearchQuery (Some intent)
         = Returns (baseURL ++ "?q="
                      ++ url.QueryEscape (strings.Join (queryParts intent) " ")))
  /\ (exists intent : SearchIntent,
         fst (analyzePromptWithOpenAI exampleHandler "x"
                (answering (responseWith "{\'main_query\':\'x\',\'exclude_words\':[\'y\']}")))
         = (Some intent, None)
         /\ ExactPhrases intent = Some []).
Proof.
  split.
  - apply (proj1 extracted_lists_never_nil). vm_compute. reflexivity.
  - destruct (proj1 (proj2 extracted_lists_never_nil)
                exampleHandler "x"
                (answering (responseWith "{\'main_query\':\'x\',\'exclude_words\':[\'y\']}"))
                (responseWith "{\'main_query\':\'x\',\'exclude_words\':[\'y\']}")
                {| Choices :=
                     Some [ {| Message :=
                                 {| MessageContent :=
                                      jsonText "{'main_query':'x','exclude_words':['y']}" |} |} ];
                   Error := None |}
                {| Message :=
                     {| MessageContent :=
                          jsonText "{'main_query':'x','exclude_words':['y']}" |} |}
                []
                [("main_query", json.Str "x");
                 ("exclude_words", json.Array [json.Str "y"])]
                eq_refl eq_refl eq_refl eq_refl eq_refl eq_refl)
      as (intent & Hintent & Hphrases & _).
    exists intent. split; [exact Hintent | apply Hphrases; reflexivity].
Defined.

(** C5, as the code has it.  Let a response be decoded that has no
    provider error and a first choice.  When the trimmed content of that
    choice has a reply error, that is, when it is no valid JSON text (prose
    around the object, text after it, no JSON at all), or holds a value
    that is neither [null] nor an object, or holds an object in which a
    key naming one of the six fields has a value, other than [null], of
    another type than the field, the extractor returns that error with the
    content and no intent, after one request, and the handler answers with
    the error without calling the builder.  When the content has no reply error
    (among others the text [null], and objects with keys missing or
    unknown), the extractor returns an intent. *)
Theorem malformed_reply_rejected (h : SearchHandler) (prompt : string) (w : World)
  (body : string) (resp : OpenAIResponse) (choice0 : Choice) (others : list Choice) :
  network w (slice_append (sent w) (newRequest h prompt)) = replies body ->
  json.Unmarshal decodeOpenAIResponse body zeroOpenAIResponse = (resp, None) ->
  Error resp = None ->
  elems (Choices resp) = choice0 :: others ->
  let content := strings.TrimSpace (MessageContent (Message choice0)) in
  let w1 := afterRequest w (newRequest h prompt) in
  match replyError content with
  | Some err =>
      analyzePromptWithOpenAI h prompt w
      = ((None, Some (errParsingIntent err content)), w1)
      /\ answerPrompt h prompt w
         = (AnalyzeError (errParsingIntent err content) 500, w1)
  | None =>
      exists intent : SearchIntent,
        analyzePromptWithOpenAI h prompt w = ((Some intent, None), w1)
  end
  /\ replyError (jsonText "Here is the JSON: {'main_query':'x'}")
     = Some json.SyntaxError
  /\ replyError (jsonText "{'main_query':'x'} Hope this helps!")
     = Some json.SyntaxError
  /\ replyError "I could not understand the request." = Some json.SyntaxError
  /\ replyError (jsonText "['x']") = Some (json.UnmarshalTypeError "array")
  /\ replyError (jsonText "{'main_query':'x','exact_phrases':'y'}")
     = Some (json.UnmarshalTypeError "string")
  /\ replyError (jsonText "{'main_query':7}")
     = Some (json.UnmarshalTypeError "number")
  /\ replyError "null" = None
  /\ replyError (jsonText "{'main_query':'x','unknown':7}") = None.
Proof.
  intros Hnet Hresp Herr Hchoices content w1.
  split; [|repeat split; vm_compute; reflexivity].
  pose proof (analyze_first_choice h prompt w body resp choice0 others
                Hnet Hresp Herr Hchoices) as Hfst.
  pose proof (analyze_sends_once h prompt w) as Hsnd.
  cbv zeta in Hfst. fold content in Hfst.
  rewrite Unmarshal_intent_error in Hfst.
  fold w1 in Hsnd.
  destruct (replyError content) as [err|].
  - assert (Ha : analyzePromptWithOpenAI h prompt w
                 = ((None, Some (errParsingIntent err content)), w1)).
    { destruct (analyzePromptWithOpenAI h prompt w) as [r w']; simpl in *.
      now subst. }
    split; [exact Ha|]. unfold answerPrompt. now rewrite Ha.
  - eexists.
    destruct (analyzePromptWithOpenAI h prompt w) as [r w']; simpl in *.
    subst. reflexivity.
Qed.

Lemma malformed_reply_rejected_witness :
  let content := jsonText "Here is the JSON: {'main_query':'x'}" in
  let w := answering (responseWith "Here is the JSON: {\'main_query\':\'x\'}") in
  let w1 := afterRequest w (newRequest exampleHandler "x") in
  analyzePromptWithOpenAI exampleHandler "x" w
  = ((None, Some (errParsingIntent json.SyntaxError content)), w1)
  /\ answerPrompt exampleHandler "x" w
     = (AnalyzeError (errParsingIntent json.SyntaxError content) 500, w1).
Proof.
  exact (proj1
           (malformed_reply_rejected exampleHandler "x"
              (answering (responseWith "Here is the JSON: {\'main_query\':\'x\'}"))
              (responseWith "Here is the JSON: {\'main_query\':\'x\'}")
              {| Choices :=
                   Some [ {| Message :=
                               {| MessageContent :=
                                    jsonText "Here is the JSON: {'main_query':'x'}" |} |} ];
                 Error := None |}
              {| Message :=
                   {| MessageContent :=
                        jsonText "Here is the JSON: {'main_query':'x'}" |} |}
              []
              eq_refl eq_refl eq_refl eq_refl)).
Defined.

(** C5, as the specification states it, fails on the reply [null]: its
    trimmed content is [null], which is valid JSON and no object, and the
    extractor returns an intent (the blank one) and no error. *)
Lemma null_reply_accepted :
  strings.TrimSpace "null" = "null"
  /\ json.parseText "null" = Some json.Null
  /\ analyzePromptWithOpenAI exampleHandler "anything" (answering (responseWith "null"))
     = ((Some blankIntent, None),
        afterRequest (answering (responseWith "null"))
          (newRequest exampleHandler "anything")).
Proof. repeat split. Qed.

(** C8, as the code has it.  What the extractor makes of a response
    depends on how its body decodes as an [OpenAIResponse].  When the body
    does not decode (it is no valid JSON text, or a member has another
    type than its field), the extractor returns the response-parse error
    with the JSON error, whatever the body reports.  When it decodes and
    carries an error of the provider, the extractor returns the provider
    error with the message of the provider; when it decodes, carries none
    and has no choice, the extractor returns the no-choices error.  In all
    three cases no intent is returned, the handler answers 500 with that
    error, and the world has seen exactly one request: nothing is sent
    again.  A body with [error] as a text, an error object beside
    [choices] of another type than an array, and an HTML page do not
    decode; an error object decodes, with or without choices beside it. *)
Theorem provider_failures (h : SearchHandler) (prompt : string) (w : World)
  (body : string) (resp : OpenAIResponse) (err : option json.error) :
  network w (slice_append (sent w) (newRequest h prompt)) = replies body ->
  json.Unmarshal decodeOpenAIResponse body zeroOpenAIResponse = (resp, err) ->
  let w1 := afterRequest w (newRequest h prompt) in
  match err with
  | Some e =>
      analyzePromptWithOpenAI h prompt w
      = ((None, Some (errParsingResponse e)), w1)
      /\ answerPrompt h prompt w = (AnalyzeError (errParsingResponse e) 500, w1)
  | None =>
      (forall apiError : ResponseError,
          Error resp = Some apiError ->
          analyzePromptWithOpenAI h prompt w
          = ((None, Some (errOpenAIAPI (ErrorMessage apiError))), w1)
          /\ answerPrompt h prompt w
             = (AnalyzeError (errOpenAIAPI (ErrorMessage apiError)) 500, w1))
      /\ (Error resp = None ->
          len (Choices resp) = 0 ->
          analyzePromptWithOpenAI h prompt w = ((None, Some errNoChoices), w1)
          /\ answerPrompt h prompt w = (AnalyzeError errNoChoices 500, w1))
  end
  /\ sent w1 = (sent w ++ [newRequest h prompt])%list
  /\ snd (json.Unmarshal decodeOpenAIResponse
            (jsonText "{'error':'Rate limit reached'}") zeroOpenAIResponse)
     = Some (json.UnmarshalTypeError "string")
  /\ snd (json.Unmarshal decodeOpenAIResponse
            (jsonText "{'error':{'message':'Rate limit reached'},'choices':{}}")
            zeroOpenAIResponse)
     = Some (json.UnmarshalTypeError "object")
  /\ snd (json.Unmarshal decodeOpenAIResponse
            "<html><body>502 Bad Gateway</body></html>" zeroOpenAIResponse)
     = Some json.SyntaxError
  /\ json.Unmarshal decodeOpenAIResponse
       (jsonText "{'error':{'message':'Rate limit reached','code':429}}")
       zeroOpenAIResponse
     = ({| Choices := None;
           Error := Some {| ErrorMessage := "Rate limit reached" |} |}, None)
  /\ json.Unmarshal decodeOpenAIResponse
       (jsonText "{'choices':[{'message':{'content':'{}'}}],'error':{'message':'overloaded'}}")
       zeroOpenAIResponse
     = ({| Choices := Some [ {| Message := {| MessageContent := "{}" |} |} ];
           Error := Some {| ErrorMessage := "overloaded" |} |}, None)
  /\ json.Unmarshal decodeOpenAIResponse (jsonText "{'choices':[]}") zeroOpenAIResponse
     = ({| Choices := Some []; Error := None |}, None).
Proof.
  intros Hnet Hresp w1.
  split; [|split; [reflexivity | repeat split; vm_compute; reflexivity]].
  destruct err as [e|].
  - assert (Ha : analyzePromptWithOpenAI h prompt w
                 = ((None, Some (errParsingResponse e)), w1)).
    { unfold analyzePromptWithOpenAI, Do. now rewrite Hnet, Hresp. }
    split; [exact Ha|]. unfold answerPrompt. now rewrite Ha.
  - split.
    + intros apiError Herr.
      assert (Ha : analyzePromptWithOpenAI h prompt w
                   = ((None, Some (errOpenAIAPI (ErrorMessage apiError))), w1)).
      { unfold analyzePromptWithOpenAI, Do. now rewrite Hnet, Hresp, Herr. }
      split; [exact Ha|]. unfold answerPrompt. now rewrite Ha.
    + intros Herr Hlen.
      assert (Hnil : elems (Choices resp) = []).
      { unfold len in Hlen. now destruct (elems (Choices resp)). }
      assert (Ha : analyzePromptWithOpenAI h prompt w
                   = ((None, Some errNoChoices), w1)).
      { unfold analyzePromptWithOpenAI, Do. now rewrite Hnet, Hresp, Herr, Hnil. }
      split; [exact Ha|]. unfold answerPrompt. now rewrite Ha.
Qed.

Lemma provider_failures_witness :
  let body :=
    jsonText "{'error':{'message':'You exceeded your current quota','type':'insufficient_quota','param':null,'code':'insufficient_quota'}}" in
  let w := answering body in
  let w1 := afterRequest w (newRequest exampleHandler "x") in
  analyzePromptWithOpenAI exampleHandler "x" w
  = ((None, Some (errOpenAIAPI "You exceeded your current quota")), w1)
  /\ answerPrompt exampleHandler "x" w
     = (AnalyzeError (errOpenAIAPI "You exceeded your current quota") 500, w1).
Proof.
  exact (proj1
           (proj1
              (provider_failures exampleHandler "x"
                 (answering (jsonText "{'error':{'message':'You exceeded your current quota','type':'insufficient_quota','param':null,'code':'insufficient_quota'}}"))
                 (jsonText "{'error':{'message':'You exceeded your current quota','type':'insufficient_quota','param':null,'code':'insufficient_quota'}}")
                 {| Choices := None;
                    Error := Some {| ErrorMessage := "You exceeded your current quota" |} |}
                 None eq_refl eq_refl))
           {| ErrorMessage := "You exceeded your current quota" |} eq_refl).
Defined.

(** C8, as the specification states it, fails on a response that reports
    its error as a text: the body does not decode, and the extractor
    returns the response-parse error with a type error, not the provider
    error with the message.  It fails too on a response that holds no
    candidate and is no JSON, such as the HTML page of a gateway: the
    extractor returns the response-parse error with a syntax error, not
    the no-choices error. *)
Lemma undecodable_response_misreported :
  analyzePromptWithOpenAI exampleHandler "x"
    (answering (jsonText "{'error':'Rate limit reached'}"))
  = ((None, Some (errParsingResponse (json.UnmarshalTypeError "string"))),
     afterRequest (answering (jsonText "{'error':'Rate limit reached'}"))
       (newRequest exampleHandler "x"))
  /\ analyzePromptWithOpenAI exampleHandler "x"
       (answering "<html><body>502 Bad Gateway</body></html>")
     = ((None, Some (errParsingResponse json.SyntaxError)),
        afterRequest (answering "<html><body>502 Bad Gateway</body></html>")
          (newRequest exampleHandler "x")).
Proof. split; vm_compute; reflexivity. Qed.

(** ** Further properties of the query builder *)

Lemma string_app_empty (a b : string) : a ++ b = "" -> a = "" /\ b = "".
Proof. destruct a; simpl; [auto | discriminate]. Qed.

Lemma Join_empty (l : list string) (sep : string) :
  (forall s, In s l -> s <> "") -> strings.Join l sep = "" -> l = [].
Proof.
  destruct l as [|x l]; [reflexivity|]. simpl. intros Hne H.
  apply string_app_empty in H as [Hx _]. elim (Hne x); auto.
Qed.

Lemma clauses_not_empty (intent : SearchIntent) (s : string) :
  In s (clausesInOrder intent) -> s <> "".
Proof.
  unfold clausesInOrder, optionalClause. intros H.
  repeat (apply in_app_or in H as [H|H]).
  - destruct (String.eqb_spec (MainQuery intent) ""); [easy|].
    destruct H as [<-|[]]. assumption.
  - apply in_map_iff in H as (p & <- & _). discriminate.
  - destruct (SiteFilter intent =? ""); [easy|]. destruct H as [<-|[]]. discriminate.
  - destruct (FileType intent =? ""); [easy|]. destruct H as [<-|[]]. discriminate.
  - apply in_map_iff in H as (p & <- & _). discriminate.
  - destruct (DateRange intent =? ""); [easy|]. destruct H as [<-|[]]. discriminate.
Qed.

Lemma filter_nonEmpty_nil (l : list string) :
  match filter nonEmpty l with [] => true | _ => false end
  = forallb (fun s => s =? "") l.
Proof.
  induction l as [|x l IH]; simpl; [reflexivity|].
  unfold nonEmpty at 1. destruct (x =? ""); simpl; [exact IH | reflexivity].
Qed.

Lemma clauses_nil (intent : SearchIntent) :
  match clausesInOrder intent with [] => true | _ => false end
  = carriesNothing intent.
Proof.
  unfold clausesInOrder, carriesNothing, optionalClause.
  rewrite <- !filter_nonEmpty_nil.
  destruct (MainQuery intent =? ""); simpl; [|reflexivity].
  destruct (filter nonEmpty (elems (ExactPhrases intent))); simpl; [|reflexivity].
  destruct (SiteFilter intent =? ""); simpl; [|reflexivity].
  destruct (FileType intent =? ""); simpl; [|reflexivity].
  destruct (filter nonEmpty (elems (ExcludeWords intent))); simpl; [|reflexivity].
  destruct (DateRange intent =? ""); reflexivity.
Qed.

(** X1. The query text is empty exactly when the intent carries nothing:
    the decoded [q] of the URL returned is the empty string if and only if
    the four texts are empty and the two lists hold nothing but empty
    entries; any non-empty field or entry gives a non-empty query. *)
Theorem query_empty_iff_nothing (intent : SearchIntent) :
  (strings.Join (queryParts intent) " " =? "") = carriesNothing intent
  /\ decoded_q_of (constructSearchQuery (Some intent))
     = Some (strings.Join (queryParts intent) " ").
Proof.
  split.
  - rewrite queryParts_in_order, <- clauses_nil.
    destruct (clausesInOrder intent) as [|x l] eqn:E; [reflexivity|].
    destruct (String.eqb_spec (strings.Join (x :: l) " ") "") as [H|H];
      [|reflexivity].
    apply Join_empty in H; [discriminate|].
    intros s Hs. apply (clauses_not_empty intent). now rewrite E.
  - rewrite constructSearchQuery_url. unfold decoded_q_of.
    apply decoded_q_search.
Qed.

Lemma allBytes_app (p : ascii -> bool) (a b : string) :
  allBytes p (a ++ b) = allBytes p a && allBytes p b.
Proof.
  induction a as [|c a IH]; simpl; [reflexivity|].
  now rewrite IH, andb_assoc.
Qed.

Lemma escapeByte_urlBytes (c : ascii) :
  allBytes urlByte (url.escapeByte c) = true.
Proof. each_byte c; reflexivity. Qed.

Lemma QueryEscape_urlBytes (s : string) :
  allBytes urlByte (url.QueryEscape s) = true.
Proof.
  induction s as [|c s IH]; simpl; [reflexivity|].
  now rewrite allBytes_app, escapeByte_urlBytes, IH.
Qed.

Lemma escapeByte_length (c : ascii) :
  1 <= String.length (url.escapeByte c) <= 3.
Proof. each_byte c; simpl; lia. Qed.

Lemma QueryEscape_length (s : string) :
  String.length s <= String.length (url.QueryEscape s) <= 3 * String.length s.
Proof.
  induction s as [|c s IH]; simpl; [lia|].
  rewrite string_length_app. pose proof (escapeByte_length c). lia.
Qed.

(** X2. The URL returned is made of URL-safe ASCII bytes only, whatever
    bytes the fields hold: letters, digits, [-_.~], the [%] and [+] of the
    escaping, and the [:/?=] of the base URL and of the parameter; no
    space, quote, [&], [#] or byte above 127 is ever written.  Its length
    lies between that of the base URL plus three plus the length of the
    query text, and the same with three times the length of the query
    text. *)
Theorem url_is_safe_ascii (intent : SearchIntent) :
  exists u : string,
    constructSearchQuery (Some intent) = Returns u
    /\ allBytes urlByte u = true
    /\ String.length baseURL + 3 + String.length (strings.Join (queryParts intent) " ")
       <= String.length u
       <= String.length baseURL + 3
          + 3 * String.length (strings.Join (queryParts intent) " ").
Proof.
  eexists. split; [apply constructSearchQuery_url|]. split.
  - rewrite !allBytes_app, QueryEscape_urlBytes. reflexivity.
  - rewrite !string_length_app.
    pose proof (QueryEscape_length (strings.Join (queryParts intent) " ")).
    simpl String.length. lia.
Qed.

(** X3. The URL does not tell a site filter from the same text typed at
    the end of the main query: when the main query and the site filter are
    not empty and no exact phrase stands between them, the intent whose
    main query ends in a space and [site:] with the filter, and whose site
    filter is empty, gets the same URL. *)
Theorem site_filter_ambiguous (intent : SearchIntent) :
  MainQuery intent <> "" ->
  SiteFilter intent <> "" ->
  forallb (fun s => s =? "") (elems (ExactPhrases intent)) = true ->
  constructSearchQuery (Some (siteInMainQuery intent))
  = constructSearchQuery (Some intent).
Proof.
  intros Hm Hs Hp.
  rewrite !constructSearchQuery_url, !queryParts_in_order.
  assert (E : strings.Join (clausesInOrder (siteInMainQuery intent)) " "
              = strings.Join (clausesInOrder intent) " ").
  { unfold clausesInOrder, siteInMainQuery, optionalClause.
    cbn [MainQuery ExactPhrases SiteFilter FileType ExcludeWords DateRange].
    rewrite <- filter_nonEmpty_nil in Hp.
    destruct (filter nonEmpty (elems (ExactPhrases intent))); [|discriminate].
    destruct (String.eqb_spec (MainQuery intent) ""); [easy|].
    destruct (String.eqb_spec (SiteFilter intent) ""); [easy|].
    destruct (String.eqb_spec
                (MainQuery intent ++ " " ++ sitePart (SiteFilter intent)) "")
      as [E|_].
    { apply string_app_empty in E as [E _]. easy. }
    change ("" =? "") with true.
    cbn [map app strings.Join strings.JoinRest].
    now rewrite !string_app_assoc. }
  now rewrite E.
Qed.

Lemma site_filter_ambiguous_witness :
  constructSearchQuery
    (Some {| MainQuery := "rocq site:example.org"; ExactPhrases := Some [""];
             SiteFilter := ""; FileType := "pdf";
             ExcludeWords := None; DateRange := "" |})
  = constructSearchQuery
      (Some {| MainQuery := "rocq"; ExactPhrases := Some [""];
               SiteFilter := "example.org"; FileType := "pdf";
               ExcludeWords := None; DateRange := "" |}).
Proof.
  apply (site_filter_ambiguous
           {| MainQuery := "rocq"; ExactPhrases := Some [""];
              SiteFilter := "example.org"; FileType := "pdf";
              ExcludeWords := None; DateRange := "" |});
    [discriminate | discriminate | reflexivity].
Defined.

(** ** Further properties of the extractor and of the handler *)

(** The extractor sends one request and returns an error and no intent,
    or an intent with both lists made and no error. *)
Lemma analyze_cases (h : SearchHandler) (prompt : string) (w : World) :
  exists r : ptr SearchIntent * option error,
    analyzePromptWithOpenAI h prompt w = (r, afterRequest w (newRequest h prompt))
    /\ ((exists e, r = (None, Some e))
        \/ (exists i, r = (Some i, None)
                      /\ ExactPhrases i <> None /\ ExcludeWords i <> None)).
Proof.
  unfold analyzePromptWithOpenAI, Do, afterRequest.
  destruct (network w _); try solve [eexists; split; [reflexivity | left; eauto]].
  destruct (json.Unmarshal decodeOpenAIResponse _ _) as [resp [e|]];
    try solve [eexists; split; [reflexivity | left; eauto]].
  destruct (Error resp); try solve [eexists; split; [reflexivity | left; eauto]].
  destruct (elems (Choices resp));
    try solve [eexists; split; [reflexivity | left; eauto]].
  destruct (json.Unmarshal decodeSearchIntent _ _) as [intent [e|]];
    try solve [eexists; split; [reflexivity | left; eauto]].
  eexists; split; [reflexivity | right]. eexists. split; [reflexivity|].
  destruct intent as [m [p|] s f [x|] d]; simpl; split; discriminate.
Qed.

(** X4. The extractor returns an intent or an error, never both and never
    neither: whatever the network does and whatever the bodies hold, either
    the intent pointer is nil and the error is set, or the error is nil and
    the pointer is set.  No path returns an intent together with an error,
    so an intent half decoded before a type error never leaves the
    function. *)
Theorem intent_xor_error (h : SearchHandler) (prompt : string) (w : World) :
  (fst (fst (analyzePromptWithOpenAI h prompt w)) = None
   /\ exists e, snd (fst (analyzePromptWithOpenAI h prompt w)) = Some e)
  \/ (snd (fst (analyzePromptWithOpenAI h prompt w)) = None
      /\ exists i, fst (fst (analyzePromptWithOpenAI h prompt w)) = Some i).
Proof.
  destruct (analyze_cases h prompt w) as (r & -> & [[e ->]|(i & -> & _)]);
    simpl; eauto.
Qed.

Lemma answerPrompt_cases (h : SearchHandler) (prompt : string) (w : World) :
  snd (answerPrompt h prompt w) = afterRequest w (newRequest h prompt)
  /\ ((exists e, fst (answerPrompt h prompt w)
                 = AnalyzeError e StatusInternalServerError)
      \/ (fst (answerPrompt h prompt w)
          = HTTPError "Error encoding response" StatusInternalServerError
          /\ writeError w <> None
          /\ snd (fst (analyzePromptWithOpenAI h prompt w)) = None)
      \/ (exists i,
             fst (answerPrompt h prompt w)
             = SearchResult
                 (baseURL ++ "?q="
                    ++ url.QueryEscape (strings.Join (queryParts i) " "))
                 (Some i)
             /\ ExactPhrases i <> None /\ ExcludeWords i <> None
             /\ writeError w = None)).
Proof.
  unfold answerPrompt.
  destruct (analyze_cases h prompt w) as (r & -> & [[e ->]|(i & -> & Hp & Hw)]).
  - split; [reflexivity | left; eexists; reflexivity].
  - rewrite constructSearchQuery_url. cbn [writeError afterRequest].
    destruct (writeError w) as [err|].
    + split; [reflexivity | right; left]. repeat split. discriminate.
    + split; [reflexivity | right; right; exists i; repeat split; assumption].
Qed.

(** X5. The handler never panics, and its answers are these: status 200
    for OPTIONS; 405 with [Method not allowed] for any other method than
    POST; 400 when the body cannot be read or is not the JSON of a prompt;
    500 with the error of the extractor; 500 with [Error encoding
    response], only when the write of the result to the client failed; or
    the search URL together with the intent it was built from, only when
    that write succeeded, the intent being non-nil with lists that are not
    nil and the URL being the base URL, [?q=] and the escaped query text
    of that very intent. *)
Theorem handler_answers (h : SearchHandler) (r : HTTPRequest) (w : World) :
  fst (handleSearch h r w) = WriteHeader 200
  \/ fst (handleSearch h r w) = HTTPError "Method not allowed" 405
  \/ fst (handleSearch h r w) = HTTPError "Error reading request body" 400
  \/ fst (handleSearch h r w) = HTTPError "Invalid request body" 400
  \/ (exists e, fst (handleSearch h r w) = AnalyzeError e 500)
  \/ (fst (handleSearch h r w) = HTTPError "Error encoding response" 500
      /\ writeError w <> None)
  \/ (exists i,
         fst (handleSearch h r w)
         = SearchResult
             (baseURL ++ "?q=" ++ url.QueryEscape (strings.Join (queryParts i) " "))
             (Some i)
         /\ ExactPhrases i <> None /\ ExcludeWords i <> None
         /\ writeError w = None).
Proof.
  unfold handleSearch.
  destruct (RequestMethod r =? "OPTIONS"); [now left|].
  destruct (RequestMethod r =? "POST"); simpl negb; cbv iota; [|now right; left].
  destruct (RequestBody r) as [body|]; [|now right; right; left].
  destruct (json.Unmarshal decodePromptRequest body _) as [req [e|]];
    [now right; right; right; left|].
  destruct (answerPrompt_cases h (Prompt req) w)
    as [_ [[e He]|[(He & Hw & _)|(i & Hi)]]].
  - right; right; right; right; left. eauto.
  - right; right; right; right; right; left. now split.
  - right; right; right; right; right; right. eauto.
Qed.

(** X6. The handler calls the provider only for a POST whose body it
    decoded, and then exactly once: when it answers with a bare status or
    with 400 or 405 (OPTIONS, another method, an unreadable or undecodable
    body) nothing is sent, and when it answers with the error of the
    extractor, with [Error encoding response] or with a search URL the
    requests sent are those sent before and one more, the request of some
    prompt. *)
Theorem handler_provider_calls (h : SearchHandler) (r : HTTPRequest) (w : World) :
  match fst (handleSearch h r w) with
  | WriteHeader _ => snd (handleSearch h r w) = w
  | HTTPError message _ =>
      if message =? "Error encoding response"
      then exists prompt : string,
             sent (snd (handleSearch h r w))
             = (sent w ++ [newRequest h prompt])%list
             /\ network (snd (handleSearch h r w)) = network w
      else snd (handleSearch h r w) = w
  | AnalyzeError _ _ | SearchResult _ _ =>
      exists prompt : string,
        sent (snd (handleSearch h r w))
        = (sent w ++ [newRequest h prompt])%list
        /\ network (snd (handleSearch h r w)) = network w
  | Panicked => False
  end.
Proof.
  unfold handleSearch.
  destruct (RequestMethod r =? "OPTIONS"); [reflexivity|].
  destruct (RequestMethod r =? "POST"); simpl negb; cbv iota; [|reflexivity].
  destruct (RequestBody r) as [body|]; [|reflexivity].
  destruct (json.Unmarshal decodePromptRequest body _) as [req [e|]];
    [reflexivity|].
  destruct (answerPrompt_cases h (Prompt req) w)
    as [Hw [[e He]|[(He & _)|(i & Hi & _)]]].
  - rewrite He, Hw. exists (Prompt req). split; reflexivity.
  - rewrite He, Hw. exists (Prompt req). split; reflexivity.
  - rewrite Hi, Hw. exists (Prompt req). split; reflexivity.
Qed.

(** *** The prompt of the request *)

Lemma decodePrompt_error_kept (members : list (string * json.value))
  (req : PromptRequest) (e : json.error) :
  snd (json.decodeStruct [("prompt", fPrompt)]
         (fun f cur v saved =>
            match f with
            | fPrompt =>
                let '(x, saved) := json.decodeString (Prompt cur) v saved in
                ({| Prompt := x |}, saved)
            end)
         req (json.Object members) (Some e))
  = Some e.
Proof.
  unfold json.decodeStruct. revert req.
  induction members as [|[key v] members IH]; intros req; simpl; [reflexivity|].
  destruct (json.findField _ key) as [[]|]; [|apply IH].
  destruct v; simpl; apply IH.
Qed.

Lemma decodePrompt_members (members : list (string * json.value)) (cur : string) :
  match promptIn members cur with
  | Some p =>
      decodePromptRequest {| Prompt := cur |} (json.Object members) None
      = ({| Prompt := p |}, None)
  | None =>
      exists e,
        snd (decodePromptRequest {| Prompt := cur |} (json.Object members) None)
        = Some e
  end.
Proof.
  revert cur. induction members as [|[key v] members IH]; intros cur.
  - reflexivity.
  - cbn [promptIn]. unfold namesPrompt.
    unfold decodePromptRequest, json.decodeStruct in *. cbn [fold_left].
    destruct (json.findField [("prompt", fPrompt)] key) as [[]|]; [|apply IH].
    destruct v; cbn [json.decodeString Prompt];
      try apply IH;
      try (eexists; apply (decodePrompt_error_kept members)).
Qed.

(** X7. What the handler makes of the body of a POST: a body that is no
    valid JSON, or holds a value that is neither [null] nor an object, or
    an object in which a key naming [prompt] (in any letter case) holds
    something else than a string or [null], is answered with 400 and
    nothing is sent; any other body is answered as its prompt is, the last
    string under such a key.  There is no guard against an empty prompt:
    the body [null], and an object with no key naming [prompt], are
    answered as the empty prompt is, the provider being called. *)
Theorem handler_prompt (h : SearchHandler) (body : string) (w : World) :
  handleSearch h {| RequestMethod := "POST"; RequestBody := Some body |} w
  = match json.parseText body with
    | None => (HTTPError "Invalid request body" 400, w)
    | Some v =>
        match promptOf v with
        | None => (HTTPError "Invalid request body" 400, w)
        | Some p => answerPrompt h p w
        end
    end
  /\ (forall members : list (string * json.value),
         forallb (fun member => negb (namesPrompt (fst member))) members = true ->
         promptOf (json.Object members) = Some "").
Proof.
  split.
  - unfold handleSearch. cbn [RequestMethod RequestBody].
    change ("POST" =? "OPTIONS") with false. change ("POST" =? "POST") with true.
    cbn [negb]. unfold json.Unmarshal.
    destruct (json.parseText body) as [v|]; [|reflexivity].
    destruct v; try reflexivity.
    unfold promptOf.
    pose proof (decodePrompt_members members "") as H.
    destruct (promptIn members "") as [p|].
    + now rewrite H.
    + destruct H as [e He].
      destruct (decodePromptRequest _ _ _) as [req err]. simpl in He.
      now rewrite He.
  - intros members. unfold promptOf. generalize "".
    induction members as [|[key v] members IH]; intros cur H; [reflexivity|].
    cbn [forallb fst] in H. apply andb_true_iff in H as [Hk H].
    apply negb_true_iff in Hk. cbn [promptIn]. rewrite Hk. now apply IH.
Qed.

Lemma handler_prompt_witness :
  promptOf (json.Object [("query", json.Str "rocq"); ("lang", json.Null)]) = Some "".
Proof.
  apply (proj2 (handler_prompt exampleHandler "" (answering ""))). reflexivity.
Defined.

(** *** Failures of the transport *)

(** X8. When the call of the provider fails (no connection, a cancelled
    context) or the body of its response cannot be read, the extractor
    returns the error of the call, respectively of the read, wrapped with
    its text, and no intent; the handler answers 500 with it; one request
    was sent and none is sent again. *)
Theorem transport_failures (h : SearchHandler) (prompt : string) (w : World)
  (err : string) :
  let w1 := afterRequest w (newRequest h prompt) in
  (network w (slice_append (sent w) (newRequest h prompt)) = doFails err ->
   analyzePromptWithOpenAI h prompt w = ((None, Some (errCallingOpenAI err)), w1)
   /\ answerPrompt h prompt w = (AnalyzeError (errCallingOpenAI err) 500, w1))
  /\ (network w (slice_append (sent w) (newRequest h prompt)) = readFails err ->
      analyzePromptWithOpenAI h prompt w = ((None, Some (errReadingBody err)), w1)
      /\ answerPrompt h prompt w = (AnalyzeError (errReadingBody err) 500, w1)).
Proof.
  intros w1. split; intros Hnet.
  - assert (Ha : analyzePromptWithOpenAI h prompt w
                 = ((None, Some (errCallingOpenAI err)), w1)).
    { unfold analyzePromptWithOpenAI, Do. now rewrite Hnet. }
    split; [exact Ha|]. unfold answerPrompt. now rewrite Ha.
  - assert (Ha : analyzePromptWithOpenAI h prompt w
                 = ((None, Some (errReadingBody err)), w1)).
    { unfold analyzePromptWithOpenAI, Do. now rewrite Hnet. }
    split; [exact Ha|]. unfold answerPrompt. now rewrite Ha.
Qed.

Lemma transport_failures_witness :
  let w := {| sent := []; network := fun _ => doFails "context canceled";
            writeError := None |} in
  let w' := {| sent := []; network := fun _ => readFails "unexpected EOF";
            writeError := None |} in
  analyzePromptWithOpenAI exampleHandler "x" w
  = ((None, Some (errCallingOpenAI "context canceled")),
     afterRequest w (newRequest exampleHandler "x"))
  /\ analyzePromptWithOpenAI exampleHandler "x" w'
     = ((None, Some (errReadingBody "unexpected EOF")),
        afterRequest w' (newRequest exampleHandler "x")).
Proof.
  split.
  - exact (proj1 (proj1 (transport_failures exampleHandler "x"
                           {| sent := []; network := fun _ => doFails "context canceled";
            writeError := None |}
                           "context canceled") eq_refl)).
  - exact (proj1 (proj2 (transport_failures exampleHandler "x"
                           {| sent := []; network := fun _ => readFails "unexpected EOF";
            writeError := None |}
                           "unexpected EOF") eq_refl)).
Defined.

(** *** Bodies of the provider that carry nothing *)

Lemma decodeResponse_no_field (members : list (string * json.value))
  (cur : OpenAIResponse) (saved : option json.error) :
  forallb (fun member => negb (namesResponseField (fst member))) members = true ->
  decodeOpenAIResponse cur (json.Object members) saved = (cur, saved).
Proof.
  unfold decodeOpenAIResponse, json.decodeStruct.
  induction members as [|[key v] members IH]; intros H; [reflexivity|].
  cbn [forallb fst] in H. apply andb_true_iff in H as [Hk H].
  apply negb_true_iff in Hk. unfold namesResponseField in Hk.
  cbn [fold_left].
  destruct (json.findField _ key); [discriminate|]. now apply IH.
Qed.

(** X9. What the extractor makes of a body that is no provider response:
    a body that is no valid JSON (an HTML error page, an empty body) gives
    the response-parse error with a syntax error; a body holding a JSON
    value that is neither [null] nor an object gives it with a type error;
    the body [null], and an object none of whose keys names [choices] or
    [error] (in any letter case), give the no-choices error.  No intent is
    returned in any of these cases. *)
Theorem useless_bodies (h : SearchHandler) (prompt : string) (w : World)
  (body : string) :
  network w (slice_append (sent w) (newRequest h prompt)) = replies body ->
  let w1 := afterRequest w (newRequest h prompt) in
  match json.parseText body with
  | None =>
      analyzePromptWithOpenAI h prompt w
      = ((None, Some (errParsingResponse json.SyntaxError)), w1)
  | Some json.Null =>
      analyzePromptWithOpenAI h prompt w = ((None, Some errNoChoices), w1)
  | Some (json.Object members) =>
      forallb (fun member => negb (namesResponseField (fst member))) members = true ->
      analyzePromptWithOpenAI h prompt w = ((None, Some errNoChoices), w1)
  | Some v =>
      analyzePromptWithOpenAI h prompt w
      = ((None, Some (errParsingResponse (json.UnmarshalTypeError (json.kind v)))), w1)
  end.
Proof.
  intros Hnet w1. unfold analyzePromptWithOpenAI, Do, json.Unmarshal.
  rewrite Hnet.
  destruct (json.parseText body) as [v|]; [|reflexivity].
  destruct v; try reflexivity.
  intros H. now rewrite decodeResponse_no_field.
Qed.

Lemma useless_bodies_witness :
  let w := answering "<html>502 Bad Gateway</html>" in
  analyzePromptWithOpenAI exampleHandler "x" w
  = ((None, Some (errParsingResponse json.SyntaxError)),
     afterRequest w (newRequest exampleHandler "x"))
  /\ analyzePromptWithOpenAI exampleHandler "x"
       (answering (jsonText "{'id':'cmpl-1','usage':{'total_tokens':0}}"))
     = ((None, Some errNoChoices),
        afterRequest (answering (jsonText "{'id':'cmpl-1','usage':{'total_tokens':0}}"))
          (newRequest exampleHandler "x")).
Proof.
  split.
  - pose proof (useless_bodies exampleHandler "x"
                  (answering "<html>502 Bad Gateway</html>")
                  "<html>502 Bad Gateway</html>" eq_refl) as H.
    cbv zeta in H.
    assert (E : json.parseText "<html>502 Bad Gateway</html>" = None)
      by (vm_compute; reflexivity).
    rewrite E in H. exact H.
  - pose proof (useless_bodies exampleHandler "x"
                  (answering (jsonText "{'id':'cmpl-1','usage':{'total_tokens':0}}"))
                  (jsonText "{'id':'cmpl-1','usage':{'total_tokens':0}}") eq_refl) as H.
    cbv zeta in H.
    assert (E : json.parseText (jsonText "{'id':'cmpl-1','usage':{'total_tokens':0}}")
                = Some (json.Object
                          [("id", json.Str "cmpl-1");
                           ("usage", json.Object [("total_tokens", json.Number "0")])]))
      by (vm_compute; reflexivity).
    rewrite E in H. apply H. reflexivity.
Defined.

(** *** The content of the first choice *)

(** What the extractor returns for a reply content, once trimmed. *)
Lemma analyze_first_choice_trimmed (h : SearchHandler) (prompt : string) (w : World)
  (body : string) (resp : OpenAIResponse) (choice0 : Choice) (others : list Choice)
  (trimmed : string) :
  network w (slice_append (sent w) (newRequest h prompt)) = replies body ->
  json.Unmarshal decodeOpenAIResponse body zeroOpenAIResponse = (resp, None) ->
  Error resp = None ->
  elems (Choices resp) = choice0 :: others ->
  strings.TrimSpace (MessageContent (Message choice0)) = trimmed ->
  fst (analyzePromptWithOpenAI h prompt w)
  = match snd (json.Unmarshal decodeSearchIntent trimmed zeroSearchIntent) with
    | Some err => (None, Some (errParsingIntent err trimmed))
    | None =>
        let decoded := fst (json.Unmarshal decodeSearchIntent trimmed zeroSearchIntent) in
        (Some {| MainQuery := MainQuery decoded;
                 ExactPhrases := emptyIfNil (ExactPhrases decoded);
                 SiteFilter := SiteFilter decoded;
                 FileType := FileType decoded;
                 ExcludeWords := emptyIfNil (ExcludeWords decoded);
                 DateRange := DateRange decoded |}, None)
    end.
Proof.
  intros Hnet Hresp Herr Hchoices <-.
  exact (analyze_first_choice h prompt w body resp choice0 others
           Hnet Hresp Herr Hchoices).
Qed.

(** X10. The result of the extractor depends on nothing but the trimmed
    content of the first choice: two runs, with any handlers, prompts and
    worlds, whose responses decode, carry no provider error and have first
    choices of the same trimmed content, return the same intent or the
    same error, whatever the other choices and the other members of the
    bodies are. *)
Theorem first_choice_only
  (h1 h2 : SearchHandler) (prompt1 prompt2 : string) (w1 w2 : World)
  (body1 body2 : string) (resp1 resp2 : OpenAIResponse)
  (first1 first2 : Choice) (others1 others2 : list Choice) :
  network w1 (slice_append (sent w1) (newRequest h1 prompt1)) = replies body1 ->
  network w2 (slice_append (sent w2) (newRequest h2 prompt2)) = replies body2 ->
  json.Unmarshal decodeOpenAIResponse body1 zeroOpenAIResponse = (resp1, None) ->
  json.Unmarshal decodeOpenAIResponse body2 zeroOpenAIResponse = (resp2, None) ->
  Error resp1 = None ->
  Error resp2 = None ->
  elems (Choices resp1) = first1 :: others1 ->
  elems (Choices resp2) = first2 :: others2 ->
  strings.TrimSpace (MessageContent (Message first1))
  = strings.TrimSpace (MessageContent (Message first2)) ->
  fst (analyzePromptWithOpenAI h1 prompt1 w1)
  = fst (analyzePromptWithOpenAI h2 prompt2 w2).
Proof.
  intros Hn1 Hn2 Hr1 Hr2 He1 He2 Hc1 Hc2 Htrim.
  rewrite (analyze_first_choice_trimmed h1 prompt1 w1 body1 resp1 first1 others1
             _ Hn1 Hr1 He1 Hc1 eq_refl).
  rewrite (analyze_first_choice_trimmed h2 prompt2 w2 body2 resp2 first2 others2
             _ Hn2 Hr2 He2 Hc2 (eq_sym Htrim)).
  reflexivity.
Qed.

Lemma first_choice_only_witness :
  fst (analyzePromptWithOpenAI exampleHandler "one"
         (answering (jsonText "{'choices':[{'message':{'content':' {} '}},{'message':{'content':'oops'}}]}")))
  = fst (analyzePromptWithOpenAI (NewSearchHandler "other-key") "two"
           (answering (jsonText "{'model':'m','choices':[{'message':{'content':'{}'}}]}"))).
Proof.
  apply (first_choice_only exampleHandler (NewSearchHandler "other-key") "one" "two"
           (answering (jsonText "{'choices':[{'message':{'content':' {} '}},{'message':{'content':'oops'}}]}"))
           (answering (jsonText "{'model':'m','choices':[{'message':{'content':'{}'}}]}"))
           (jsonText "{'choices':[{'message':{'content':' {} '}},{'message':{'content':'oops'}}]}")
           (jsonText "{'model':'m','choices':[{'message':{'content':'{}'}}]}")
           {| Choices := Some [ {| Message := {| MessageContent := " {} " |} |};
                                {| Message := {| MessageContent := "oops" |} |} ];
              Error := None |}
           {| Choices := Some [ {| Message := {| MessageContent := "{}" |} |} ];
              Error := None |}
           {| Message := {| MessageContent := " {} " |} |}
           {| Message := {| MessageContent := "{}" |} |}
           [ {| Message := {| MessageContent := "oops" |} |} ] []);
    vm_compute; reflexivity.
Defined.

(** *** Spaces around the reply *)

Lemma asciiSpace_is_ascii (c : ascii) :
  strings.asciiSpace c = true -> (utf8.RuneSelf <=? byte_val c)%N = false.
Proof.
  unfold strings.asciiSpace, utf8.between, utf8.RuneSelf. intros H.
  apply N.leb_gt.
  apply orb_true_iff in H as [H|H].
  - apply andb_true_iff in H as [_ H]. apply N.leb_le in H. lia.
  - apply N.eqb_eq in H. lia.
Qed.

Lemma solidByte_spec (c : ascii) :
  solidByte c = true ->
  (utf8.RuneSelf <=? byte_val c)%N = false /\ strings.asciiSpace c = false.
Proof.
  unfold solidByte. intros H. apply andb_true_iff in H as [Ha Hs].
  apply N.ltb_lt in Ha. apply negb_true_iff in Hs.
  split; [apply N.leb_gt; exact Ha | exact Hs].
Qed.

Lemma reverse_app (a b : string) :
  strings.reverse (a ++ b) = strings.reverse b ++ strings.reverse a.
Proof.
  induction a as [|c a IH]; simpl.
  - induction (strings.reverse b) as [|x r IHr]; simpl; [reflexivity|].
    now rewrite <- IHr.
  - now rewrite !reverse_cons, IH, string_app_assoc.
Qed.

Lemma reverse_reverse (s : string) : strings.reverse (strings.reverse s) = s.
Proof.
  induction s as [|c s IH]; [reflexivity|].
  now rewrite reverse_cons, reverse_app, IH.
Qed.

Lemma allBytes_reverse (p : ascii -> bool) (s : string) :
  allBytes p (strings.reverse s) = allBytes p s.
Proof.
  induction s as [|c s IH]; [reflexivity|].
  rewrite reverse_cons, allBytes_app, IH. simpl.
  now rewrite andb_true_r, andb_comm.
Qed.

Lemma TrimSpace_leading (pad s : string) :
  allBytes strings.asciiSpace pad = true ->
  strings.TrimSpace (pad ++ s) = strings.TrimSpace s.
Proof.
  induction pad as [|c pad IH]; intros H; [reflexivity|].
  simpl in H. apply andb_true_iff in H as [Hc H].
  cbn [String.append strings.TrimSpace].
  now rewrite (asciiSpace_is_ascii c Hc), Hc, IH.
Qed.

Lemma trimSpaceStop_trailing (pad s : string) :
  allBytes strings.asciiSpace pad = true ->
  strings.trimSpaceStop (pad ++ s) = strings.trimSpaceStop s.
Proof.
  induction pad as [|c pad IH]; intros H; [reflexivity|].
  simpl in H. apply andb_true_iff in H as [Hc H].
  cbn [String.append strings.trimSpaceStop].
  now rewrite (asciiSpace_is_ascii c Hc), Hc, IH.
Qed.

(** [TrimSpace] removes exactly the ASCII spaces around a text whose
    first and last bytes are ASCII and no spaces. *)
Lemma TrimSpace_padded (before s after : string) :
  allBytes strings.asciiSpace before = true ->
  allBytes strings.asciiSpace after = true ->
  solid s = true ->
  strings.TrimSpace (before ++ s ++ after) = s.
Proof.
  intros Hb Ha Hs. rewrite TrimSpace_leading by assumption.
  unfold solid in Hs.
  destruct s as [|first rest]; [discriminate|].
  destruct (strings.reverse (String first rest)) as [|last init] eqn:Hrev;
    [discriminate|].
  apply andb_true_iff in Hs as [Hf Hl].
  apply solidByte_spec in Hf as [Hf1 Hf2]. apply solidByte_spec in Hl as [Hl1 Hl2].
  cbn [String.append strings.TrimSpace]. rewrite Hf1, Hf2.
  change (String first (rest ++ after)) with (String first rest ++ after).
  rewrite reverse_app, trimSpaceStop_trailing
    by (now rewrite allBytes_reverse).
  rewrite Hrev. cbn [strings.trimSpaceStop]. rewrite Hl1, Hl2.
  now rewrite <- Hrev, reverse_reverse.
Qed.

Lemma TrimSpace_blank (s : string) :
  allBytes strings.asciiSpace s = true -> strings.TrimSpace s = "".
Proof.
  induction s as [|c s IH]; intros H; [reflexivity|].
  simpl in H. apply andb_true_iff in H as [Hc H].
  cbn [strings.TrimSpace]. now rewrite (asciiSpace_is_ascii c Hc), Hc, IH.
Qed.

(** X11. Spaces, tabs and line ends around a reply do not count: when the
    content of the first choice is a text whose first and last bytes are
    ASCII and no spaces (a JSON object between its braces, say) with ASCII
    spaces before and after, what is decoded, and what a parse error
    carries, is that text itself; the extractor returns what it returns
    for the text without the spaces. *)
Theorem padding_is_trimmed (h : SearchHandler) (prompt : string) (w : World)
  (body : string) (resp : OpenAIResponse) (choice0 : Choice) (others : list Choice)
  (before reply after : string) :
  network w (slice_append (sent w) (newRequest h prompt)) = replies body ->
  json.Unmarshal decodeOpenAIResponse body zeroOpenAIResponse = (resp, None) ->
  Error resp = None ->
  elems (Choices resp) = choice0 :: others ->
  MessageContent (Message choice0) = before ++ reply ++ after ->
  allBytes strings.asciiSpace before = true ->
  allBytes strings.asciiSpace after = true ->
  solid reply = true ->
  strings.TrimSpace (MessageContent (Message choice0)) = reply
  /\ fst (analyzePromptWithOpenAI h prompt w)
     = match replyError reply with
       | Some err => (None, Some (errParsingIntent err reply))
       | None =>
           let decoded :=
             fst (json.Unmarshal decodeSearchIntent reply zeroSearchIntent) in
           (Some {| MainQuery := MainQuery decoded;
                    ExactPhrases := emptyIfNil (ExactPhrases decoded);
                    SiteFilter := SiteFilter decoded;
                    FileType := FileType decoded;
                    ExcludeWords := emptyIfNil (ExcludeWords decoded);
                    DateRange := DateRange decoded |}, None)
       end.
Proof.
  intros Hnet Hresp Herr Hchoices Hcontent Hb Ha Hs.
  assert (Htrim : strings.TrimSpace (MessageContent (Message choice0)) = reply)
    by (rewrite Hcontent; now apply TrimSpace_padded).
  split; [exact Htrim|].
  rewrite (analyze_first_choice_trimmed h prompt w body resp choice0 others
             reply Hnet Hresp Herr Hchoices Htrim).
  now rewrite Unmarshal_intent_error.
Qed.

Lemma padding_is_trimmed_witness :
  fst (analyzePromptWithOpenAI exampleHandler "x"
         (answering (responseWith "\n\t {\'main_query\':\'x\'} \r\n")))
  = (Some {| MainQuery := "x"; ExactPhrases := Some []; SiteFilter := "";
             FileType := ""; ExcludeWords := Some []; DateRange := "" |}, None).
Proof.
  pose proof (padding_is_trimmed exampleHandler "x"
                (answering (responseWith "\n\t {\'main_query\':\'x\'} \r\n"))
                (responseWith "\n\t {\'main_query\':\'x\'} \r\n")
                {| Choices :=
                     Some [ {| Message :=
                                 {| MessageContent :=
                                      String json.lf (String json.tab " ")
                                        ++ jsonText "{'main_query':'x'}"
                                        ++ String " " (String json.cr (String json.lf "")) |} |} ];
                   Error := None |}
                {| Message :=
                     {| MessageContent :=
                          String json.lf (String json.tab " ")
                            ++ jsonText "{'main_query':'x'}"
                            ++ String " " (String json.cr (String json.lf "")) |} |}
                []
                (String json.lf (String json.tab " "))
                (jsonText "{'main_query':'x'}")
                (String " " (String json.cr (String json.lf "")))) as H.
  destruct H as [_ H]; [vm_compute; reflexivity .. |].
  rewrite H. vm_compute. reflexivity.
Defined.

(** X12. A first choice with no content, or with nothing but ASCII
    spaces, tabs and line ends in it, is a parse error: the extractor
    returns the intent-parse error with a syntax error and the empty
    content, and no intent.  So is a choice without [message] or without
    [content], whose content is the empty string. *)
Theorem blank_reply (h : SearchHandler) (prompt : string) (w : World)
  (body : string) (resp : OpenAIResponse) (choice0 : Choice) (others : list Choice) :
  network w (slice_append (sent w) (newRequest h prompt)) = replies body ->
  json.Unmarshal decodeOpenAIResponse body zeroOpenAIResponse = (resp, None) ->
  Error resp = None ->
  elems (Choices resp) = choice0 :: others ->
  allBytes strings.asciiSpace (MessageContent (Message choice0)) = true ->
  analyzePromptWithOpenAI h prompt w
  = ((None, Some (errParsingIntent json.SyntaxError "")),
     afterRequest w (newRequest h prompt)).
Proof.
  intros Hnet Hresp Herr Hchoices Hblank.
  pose proof (analyze_first_choice_trimmed h prompt w body resp choice0 others
                "" Hnet Hresp Herr Hchoices (TrimSpace_blank _ Hblank)) as Hfst.
  pose proof (analyze_sends_once h prompt w) as Hsnd.
  change (snd (json.Unmarshal decodeSearchIntent "" zeroSearchIntent))
    with (Some json.SyntaxError) in Hfst.
  destruct (analyzePromptWithOpenAI h prompt w) as [r w']; simpl in *.
  now subst.
Qed.

Lemma blank_reply_witness :
  analyzePromptWithOpenAI exampleHandler "x"
    (answering (jsonText "{'choices':[{'finish_reason':'length'}]}"))
  = ((None, Some (errParsingIntent json.SyntaxError "")),
     afterRequest (answering (jsonText "{'choices':[{'finish_reason':'length'}]}"))
       (newRequest exampleHandler "x")).
Proof.
  apply (blank_reply exampleHandler "x"
           (answering (jsonText "{'choices':[{'finish_reason':'length'}]}"))
           (jsonText "{'choices':[{'finish_reason':'length'}]}")
           {| Choices := Some [zeroChoice]; Error := None |}
           zeroChoice []);
    vm_compute; reflexivity.
Defined.

(** *** The members of a reply *)

Lemma decodeStruct_app {S F : Type} (fs : list (string * F))
  (store : F -> json.decoder S) (m1 m2 : list (string * json.value))
  (cur : S) (saved : option json.error) :
  json.decodeStruct fs store cur (json.Object (m1 ++ m2)) saved
  = let '(cur1, saved1) := json.decodeStruct fs store cur (json.Object m1) saved in
    json.decodeStruct fs store cur1 (json.Object m2) saved1.
Proof.
  unfold json.decodeStruct. rewrite fold_left_app.
  now destruct (fold_left _ m1 (cur, saved)).
Qed.

(** X13. A member of the reply whose key names none of the six fields is
    ignored, whatever it holds: the intent decoded, and the error if any,
    are those of the reply without that member. *)
Theorem unknown_key_ignored (m1 m2 : list (string * json.value)) (key : string)
  (v : json.value) (cur : SearchIntent) (saved : option json.error) :
  json.findField intentFields key = None ->
  decodeSearchIntent cur (json.Object (m1 ++ (key, v) :: m2)) saved
  = decodeSearchIntent cur (json.Object (m1 ++ m2)) saved.
Proof.
  intros Hkey. rewrite !decodeSearchIntent_members.
  unfold decodeIntentMemory. rewrite !decodeStruct_app.
  destruct (json.decodeStruct intentFields storeIntentField (fresh cur)
              (json.Object m1) saved) as [mem1 saved1].
  unfold json.decodeStruct. cbn [fold_left]. now rewrite Hkey.
Qed.

Lemma unknown_key_ignored_witness :
  decodeSearchIntent zeroSearchIntent
    (json.Object [("main_query", json.Str "x");
                  ("confidence", json.Array [json.Number "0.9"; json.Object []]);
                  ("file_type", json.Str "pdf")]) None
  = decodeSearchIntent zeroSearchIntent
      (json.Object [("main_query", json.Str "x"); ("file_type", json.Str "pdf")]) None.
Proof.
  apply (unknown_key_ignored [("main_query", json.Str "x")]
           [("file_type", json.Str "pdf")] "confidence").
  reflexivity.
Defined.

Lemma sameField_eq (f g : intentField) : sameField f g = true -> f = g.
Proof. destruct f, g; simpl; congruence. Qed.

Lemma store_keeps_field (f g : intentField) (mem : intentMemory)
  (v : json.value) (saved : option json.error) :
  sameField f g = false ->
  fieldValue f (theIntent (fst (storeIntentField g mem v saved)))
  = fieldValue f (theIntent mem).
Proof.
  destruct f, g; try discriminate; intros _; unfold storeIntentField;
    match goal with
    | |- context [json.decodeString ?c v saved] =>
        destruct (json.decodeString c v saved); reflexivity
    | |- context [decodeStrings ?c v saved] =>
        destruct (decodeStrings c v saved) as [[x spare] saved1]; reflexivity
    end.
Qed.

(** An array of strings overwrites every element it is decoded into,
    whatever the backing array held. *)
Lemma decodeElems_strings (elements : list json.value) (backing : list string)
  (saved : option json.error) :
  forallb isStr elements = true ->
  map json.Str (fst (fst (json.decodeElems "" json.decodeString backing elements saved)))
  = elements.
Proof.
  revert backing saved.
  induction elements as [|v elements IH]; intros backing saved H; [reflexivity|].
  cbn [forallb] in H. apply andb_true_iff in H as [Hv H].
  destruct v; try discriminate.
  cbn [json.decodeElems].
  destruct backing as [|x backing']; cbn [json.decodeString].
  - specialize (IH [] saved H).
    destruct (json.decodeElems "" json.decodeString [] elements saved)
      as [[rest spare] saved1]; simpl in *.
    now rewrite IH.
  - specialize (IH backing' saved H).
    destruct (json.decodeElems "" json.decodeString backing' elements saved)
      as [[rest spare] saved1]; simpl in *.
    now rewrite IH.
Qed.

Lemma decodeStrings_strings (elements : list json.value)
  (cur : slice string * list string) (saved : option json.error) :
  forallb isStr elements = true ->
  listValue (fst (fst (decodeStrings cur (json.Array elements) saved)))
  = json.Array elements.
Proof.
  intros H. unfold decodeStrings, json.decodeSlice.
  destruct elements as [|v elements]; [reflexivity|].
  pose proof (decodeElems_strings (v :: elements) (elems (fst cur) ++ snd cur) saved H)
    as E.
  destruct (json.decodeElems "" json.decodeString _ (v :: elements) saved)
    as [[l spare] saved1]; simpl in *.
  now rewrite E.
Qed.

Lemma store_sets_field (f : intentField) (mem : intentMemory)
  (v : json.value) (saved : option json.error) :
  definite (intentFieldShape f) v = true ->
  fieldValue f (theIntent (fst (storeIntentField f mem v saved))) = v.
Proof.
  destruct f; cbn [intentFieldShape definite]; destruct v; try discriminate;
    intros H; try reflexivity;
    unfold storeIntentField;
    match goal with
    | |- context [decodeStrings ?c (json.Array ?els) saved] =>
        pose proof (decodeStrings_strings els c saved H) as E;
        destruct (decodeStrings c (json.Array els) saved) as [[x spare] saved1];
        exact E
    end.
Qed.

Lemma decodeMembers_keep_field (f : intentField)
  (members : list (string * json.value)) (mem : intentMemory)
  (saved : option json.error) :
  absent f members = true ->
  fieldValue f (theIntent (fst (decodeIntentMemory mem (json.Object members) saved)))
  = fieldValue f (theIntent mem).
Proof.
  unfold decodeIntentMemory, json.decodeStruct. revert mem saved.
  induction members as [|[key v] members IH]; intros mem saved H; [reflexivity|].
  cbn [absent forallb fst] in H. apply andb_true_iff in H as [Hk H].
  apply negb_true_iff in Hk. unfold names in Hk. cbn [fold_left].
  destruct (json.findField intentFields key) as [g|]; [|now apply IH].
  pose proof (store_keeps_field f g mem v saved Hk) as Hg.
  destruct (storeIntentField g mem v saved) as [mem1 saved1]; simpl in Hg.
  now rewrite (IH mem1 saved1 H), Hg.
Qed.

(** X14. The last member that names a field decides it: when the reply
    holds, under a key naming field [f], a string (for a string field) or
    an array of strings (for a list), and no later member names [f], the
    intent decoded holds exactly that value in [f], whatever the members
    before held under that key or any other, whatever was in the intent
    before, and whether or not a type error is met elsewhere. *)
Theorem last_member_decides (f : intentField) (m1 m2 : list (string * json.value))
  (key : string) (v : json.value) (cur : SearchIntent) (saved : option json.error) :
  names f key = true ->
  definite (intentFieldShape f) v = true ->
  absent f m2 = true ->
  fieldValue f (fst (decodeSearchIntent cur (json.Object (m1 ++ (key, v) :: m2)) saved))
  = v.
Proof.
  intros Hkey Hv Hrest. rewrite decodeSearchIntent_members. cbn [fst].
  unfold decodeIntentMemory. rewrite decodeStruct_app.
  destruct (json.decodeStruct intentFields storeIntentField (fresh cur)
              (json.Object m1) saved) as [mem1 saved1].
  unfold names in Hkey.
  unfold json.decodeStruct. cbn [fold_left].
  destruct (json.findField intentFields key) as [g|]; [|discriminate].
  apply sameField_eq in Hkey. subst g.
  pose proof (store_sets_field f mem1 v saved1 Hv) as Hset.
  destruct (storeIntentField f mem1 v saved1) as [mem2 saved2]; simpl in Hset.
  pose proof (decodeMembers_keep_field f m2 mem2 saved2 Hrest) as Hkeep.
  unfold decodeIntentMemory, json.decodeStruct in Hkeep.
  now rewrite Hkeep.
Qed.

Lemma last_member_decides_witness :
  fieldValue fExactPhrases
    (fst (decodeSearchIntent zeroSearchIntent
            (json.Object [("exact_phrases", json.Array [json.Str "a"; json.Str "b"]);
                          ("main_query", json.Number "7");
                          ("Exact_Phrases", json.Array [json.Str "c"]);
                          ("date_range", json.Str "2024")]) None))
  = json.Array [json.Str "c"].
Proof.
  apply (last_member_decides fExactPhrases
           [("exact_phrases", json.Array [json.Str "a"; json.Str "b"]);
            ("main_query", json.Number "7")]
           [("date_range", json.Str "2024")]
           "Exact_Phrases" (json.Array [json.Str "c"]));
    reflexivity.
Defined.

(** *** Letter case of the keys *)

(** Two names that a key equals, case ignored, start with the same letter,
    case ignored, and their rests are equalled by one rest of the key. *)
Lemma equalFold_heads (a b : ascii) (n1 n2 key : string) :
  json.equalFold (String a n1) key = true ->
  json.equalFold (String b n2) key = true ->
  json.toUpper a = json.toUpper b
  /\ exists key', json.equalFold n1 key' = true /\ json.equalFold n2 key' = true.
Proof.
  destruct key as [|k key1]; [discriminate|].
  cbn [json.equalFold].
  destruct (byte_val k <? utf8.RuneSelf)%N.
  - intros H1 H2. apply andb_true_iff in H1 as [H1 H1'], H2 as [H2 H2'].
    apply Ascii.eqb_eq in H1, H2. split; [congruence | eauto].
  - destruct key1 as [|k2 key2]; [discriminate|].
    destruct ((byte_val k =? 197)%N && (byte_val k2 =? 191)%N).
    + intros H1 H2. apply andb_true_iff in H1 as [H1 H1'], H2 as [H2 H2'].
      apply Ascii.eqb_eq in H1, H2. split; [congruence | eauto].
    + destruct key2 as [|k3 key3]; [discriminate|].
      destruct ((byte_val k =? 226)%N && (byte_val k2 =? 132)%N
                && (byte_val k3 =? 170)%N); [|discriminate].
      intros H1 H2. apply andb_true_iff in H1 as [H1 H1'], H2 as [H2 H2'].
      apply Ascii.eqb_eq in H1, H2. split; [congruence | eauto].
Qed.

(** No key equals two different names of the table, case ignored. *)
Ltac refute_fold H1 H2 :=
  exfalso;
  repeat (let Hu := fresh "Hu" in
          let k := fresh "k" in
          let H1' := fresh "H1" in
          let H2' := fresh "H2" in
          destruct (equalFold_heads _ _ _ _ _ H1 H2) as [Hu (k & H1' & H2')];
          try (vm_compute in Hu; discriminate Hu);
          clear H1 H2 Hu; rename H1' into H1; rename H2' into H2).

Lemma names_fold (name key : string) (f : intentField) :
  In (name, f) intentFields ->
  json.equalFold name key = true ->
  names f key = true.
Proof.
  intros Hin Hfold. unfold names, json.findField, intentFields.
  cbn [json.findBy].
  repeat match goal with
         | |- context [String.eqb ?n key] =>
             destruct (String.eqb_spec n key) as [E|_];
             [ subst key; simpl in Hin;
               repeat (destruct Hin as [Hin|Hin];
                       [injection Hin as <- <-;
                        first [reflexivity | vm_compute in Hfold; discriminate Hfold]|]);
               contradiction |]
         end.
  simpl in Hin.
  repeat (destruct Hin as [Hin|Hin];
          [injection Hin as <- <-;
           repeat match goal with
                  | |- context [json.equalFold ?n key] =>
                      first
                        [ rewrite Hfold; reflexivity
                        | let E := fresh "E" in
                          destruct (json.equalFold n key) eqn:E;
                          [ refute_fold Hfold E |] ]
                  end |]);
    contradiction.
Qed.

(** X15. The letter case of a key does not count: a member whose key
    equals the name of a field when case is ignored (the name itself, the
    name in capitals, or any mixture) is stored into that field, so a reply
    of one such member holding a string, or an array of strings for a
    list, gives the field exactly that value. *)
Theorem key_case_ignored (name key : string) (f : intentField) (v : json.value)
  (cur : SearchIntent) (saved : option json.error) :
  In (name, f) intentFields ->
  json.equalFold name key = true ->
  definite (intentFieldShape f) v = true ->
  names f key = true
  /\ fieldValue f (fst (decodeSearchIntent cur (json.Object [(key, v)]) saved)) = v.
Proof.
  intros Hin Hfold Hv.
  pose proof (names_fold name key f Hin Hfold) as Hnames.
  split; [exact Hnames|].
  unfold names in Hnames.
  rewrite decodeSearchIntent_members. cbn [fst].
  unfold decodeIntentMemory, json.decodeStruct. cbn [fold_left].
  destruct (json.findField intentFields key) as [g|]; [|discriminate].
  apply sameField_eq in Hnames. subst g.
  now apply store_sets_field.
Qed.

Lemma key_case_ignored_witness :
  names fSiteFilter "Site_FILTER" = true
  /\ fieldValue fSiteFilter
       (fst (decodeSearchIntent zeroSearchIntent
               (json.Object [("Site_FILTER", json.Str "example.org")]) None))
     = json.Str "example.org".
Proof.
  apply (key_case_ignored "site_filter" "Site_FILTER" fSiteFilter
           (json.Str "example.org") zeroSearchIntent None);
    [simpl; auto 6 | reflexivity | reflexivity].
Defined.
